(** * Dashboard_H: the sales dashboard's aggregation, growth, cache and
      blob-store code, embedded and checked against its specification.

    The program is a Streamlit script ([app.py]) over pandas tables, with a
    thin S3 wrapper ([s3_utils.py]).  The embedding keeps the script's names.

    - numbers are IEEE-754 binary64 values, Rocq's primitive [float]: this is
      what a pandas [float64] column, a numpy scalar and a Python [float]
      hold; counts are taken as such numbers too (they are exact up to 2^53);
    - Python [str] and formatted text are [string];
    - a table is the list of its rows, in row order;
    - the blob store is a finite map from (bucket, key) to object bodies, and
      code that can raise returns a [result]. *)

From stdpp Require Import gmap strings.
From Stdlib Require Import ZArith List String Ascii Bool Lia Floats.
From Stdlib Require Import DecimalString Sorted Permutation OrderedTypeEx.
From Stdlib Require DecimalPos DecimalZ.
Import ListNotations.

Local Open Scope string_scope.
Local Open Scope list_scope.

(** ** Python floats and their formatting *)

Module PyFloat.

(** [pd.isna] on a float cell and [np.isinf]. *)
Definition isna (x : float) : bool := PrimFloat.is_nan x.
Definition isinf (x : float) : bool := PrimFloat.is_infinity x.

(** The integer nearest to [m * 10^p * 2^e], ties to even: the digits that
    [format(x, '.pf')] prints for the binary64 value [m * 2^e] (CPython
    rounds the exact binary value correctly). *)
Definition scaled_round (p : nat) (m : positive) (e : Z) : N :=
  let num := (Zpos m * 10 ^ Z.of_nat p)%Z in
  if (0 <=? e)%Z then Z.to_N (num * 2 ^ e)
  else
    let den := (2 ^ (- e))%Z in
    let q := (num / den)%Z in
    let r := (num mod den)%Z in
    let up := ((den <? 2 * r) || ((den =? 2 * r) && Z.odd q))%Z in
    Z.to_N (if up then q + 1 else q)%Z.

Definition digits_of_N (n : N) : list ascii :=
  list_ascii_of_string (NilZero.string_of_uint (N.to_uint n)).

(** Left padding with zeros up to [n] digits. *)
Definition zero_pad (n : nat) (ds : list ascii) : list ascii :=
  repeat "0"%char (n - List.length ds) ++ ds.

(** The [,] option: a comma between groups of three digits, counted from
    the right; the argument is the integer part reversed. *)
Fixpoint group3 (rev_digits : list ascii) : list ascii :=
  match rev_digits with
  | a :: b :: c :: ((_ :: _) as rest) => a :: b :: c :: ","%char :: group3 rest
  | _ => rev_digits
  end.

Definition fixed_digits (grouping : bool) (p : nat) (n : N) : string :=
  let ds := zero_pad (S p) (digits_of_N n) in
  let k := (List.length ds - p)%nat in
  let int_part := firstn k ds in
  let frac_part := skipn k ds in
  let int_part := if grouping then rev (group3 (rev int_part)) else int_part in
  string_of_list_ascii
    (int_part ++ match p with O => [] | S _ => "."%char :: frac_part end).

Definition sign_str (s : bool) : string := if s then "-" else "".

(** [format(x, '.pf')], and [format(x, ',.pf')] when [grouping]. *)
Definition format_f (grouping : bool) (p : nat) (x : float) : string :=
  match Prim2SF x with
  | S754_nan => "nan"
  | S754_infinity s => (sign_str s ++ "inf")%string
  | S754_zero s => (sign_str s ++ fixed_digits grouping p 0)%string
  | S754_finite s m e =>
      (sign_str s ++ fixed_digits grouping p (scaled_round p m e))%string
  end.

End PyFloat.

(** ** pandas: reductions, sorting, grouping, merging *)

Module Pandas.

(** [Series.sum()]: missing cells are skipped ([skipna=True]) and the sum
    of an empty column is 0.  The cells are added here from left to right;
    pandas may add them in another order or with compensation, which can
    change the last bit of a sum of three or more cells and nothing else
    that is stated below. *)
Definition Series_sum (col : list float) : float :=
  fold_left (fun acc x => if PyFloat.isna x then acc else (acc + x)%float) col 0%float.

Section Sort.
Context {A : Type} (leb : A -> A -> bool).

Fixpoint insert_sorted (x : A) (l : list A) : list A :=
  match l with
  | [] => [x]
  | y :: l' => if leb x y then x :: l else y :: insert_sorted x l'
  end.

(** An ascending sort by insertion.  Rows with equal keys keep their input
    order; numpy's default sort does so on short tables and does not promise
    it on long ones. *)
Definition stable_sort (l : list A) : list A := fold_right insert_sorted [] l.
End Sort.

(** [DataFrame.sort_values(by)] on one key column, as pandas' [nargsort]
    does it: rows with a missing key go last ([na_position='last']); for
    [ascending=False] the others are reversed, sorted ascending and
    reversed again.  Only the key column is read. *)
Definition sort_values {A K : Type} (isna : K -> bool) (leb : K -> K -> bool)
    (by_ : A -> K) (ascending : bool) (df : list A) : list A :=
  let non_nan := List.filter (fun r => negb (isna (by_ r))) df in
  let nans := List.filter (fun r => isna (by_ r)) df in
  let le_rows := fun a b => leb (by_ a) (by_ b) in
  (if ascending then stable_sort le_rows non_nan
   else rev (stable_sort le_rows (rev non_nan))) ++ nans.

Definition sort_values_float {A : Type} := @sort_values A float PyFloat.isna PrimFloat.leb.

(** Two neighbouring rows of a table sorted by a key: the second key is
    missing, or both are present and in order. *)
Definition na_last {A K : Type} (isna : K -> bool) (leb : K -> K -> bool)
    (by_ : A -> K) (ascending : bool) (a b : A) : Prop :=
  isna (by_ b) = true \/
  (isna (by_ a) = false /\ isna (by_ b) = false /\
   (if ascending then leb (by_ a) (by_ b) else leb (by_ b) (by_ a)) = true).

(** The distinct values of a column in ascending order: the group keys of
    [groupby] (which sorts them) and Python's [sorted(col.unique())]. *)
Definition sorted_unique (keys : list string) : list string :=
  stable_sort String.leb (nodup string_dec keys).

(** [df.groupby(key)[col].sum().reset_index()]. *)
Definition groupby_sum {A : Type} (key : A -> string) (col : A -> float)
    (df : list A) : list (string * float) :=
  List.map (fun k => (k, Series_sum (List.map col (List.filter (fun r => String.eqb (key r) k) df))))
           (sorted_unique (List.map key df)).

(** [pd.merge(left, right, on=key)]: the inner join, in the order of the
    left table. *)
Definition merge (left right : list (string * float)) : list (string * float * float) :=
  flat_map (fun l => List.map (fun r => (fst l, snd l, snd r))
                       (List.filter (fun r => String.eqb (fst r) (fst l)) right)) left.

End Pandas.

(** ** The sales table and tab 1, "MTD Sales Overview" *)

Record SalesRow := {
  SALON_NAMES : string;
  BRAND : string;
  Year : string;
  Month : string;
  MTD_SALES : float;
  MTD_BILLS : float
}.

Definition SalesTable := list SalesRow.

(** [filtered_data]: the three selections, each skipped when it is "All". *)
Definition filtered_data (sales_data : SalesTable)
    (selected_year selected_brand selected_month : string) : SalesTable :=
  let fd := sales_data in
  let fd := if negb (String.eqb selected_year "All")
            then List.filter (fun r => String.eqb (Year r) selected_year) fd else fd in
  let fd := if negb (String.eqb selected_brand "All")
            then List.filter (fun r => String.eqb (BRAND r) selected_brand) fd else fd in
  let fd := if negb (String.eqb selected_month "All")
            then List.filter (fun r => String.eqb (Month r) selected_month) fd else fd in
  fd.

Definition total_sales (fd : SalesTable) : float := Pandas.Series_sum (List.map MTD_SALES fd).
Definition total_bills (fd : SalesTable) : float := Pandas.Series_sum (List.map MTD_BILLS fd).

(** [total_sales / total_bills if total_bills > 0 else 0]: the division is
    evaluated only in the first branch. *)
Definition avg_bill_value (fd : SalesTable) : float :=
  if (0 <? total_bills fd)%float then (total_sales fd / total_bills fd)%float else 0%float.

(** The currency prefix of the metric labels, byte for byte as in [app.py]. *)
Definition rupee : string := "â‚¹".

Definition avg_bill_value_metric (fd : SalesTable) : string :=
  (rupee ++ PyFloat.format_f true 0 (avg_bill_value fd))%string.

(** ** Tab 4, "Growth Analysis" *)

Module Tab4.

(** [years = sorted(sales_data['Year'].unique())]. *)
Definition years (sales_data : SalesTable) : list string :=
  Pandas.sorted_unique (List.map Year sales_data).

(** A row of [growth_data] (and of [salon_growth], whose column suffixes
    are [_2023] and [_2025]). *)
Record GrowthRow := {
  Outlet : string;
  MTD_SALES_base : float;
  MTD_SALES_compare : float;
  Growth_Amount : float;
  Growth_Percent : float
}.

Definition year_data (sales_data : SalesTable) (year : string) : SalesTable :=
  List.filter (fun r => String.eqb (Year r) year) sales_data.

Definition by_salon (data : SalesTable) : list (string * float) :=
  Pandas.groupby_sum SALON_NAMES MTD_SALES data.

(** The two new columns, computed for every merged row alike. *)
Definition with_growth (merged : string * float * float) : GrowthRow :=
  let '(salon, base, compare) := merged in
  {| Outlet := salon;
     MTD_SALES_base := base;
     MTD_SALES_compare := compare;
     Growth_Amount := (compare - base)%float;
     Growth_Percent := (((compare / base) - 1) * 100)%float |}.

(** [growth_data] of the Year-to-Year Comparison: filter the two years,
    sum per outlet, merge, add the growth columns, sort by growth. *)
Definition growth_data (sales_data : SalesTable) (base_year compare_year : string)
    : list GrowthRow :=
  let base_by_salon := by_salon (year_data sales_data base_year) in
  let compare_by_salon := by_salon (year_data sales_data compare_year) in
  let growth := List.map with_growth (Pandas.merge base_by_salon compare_by_salon) in
  Pandas.sort_values_float Growth_Percent false growth.

(** [salon_growth]: the same computation between '2023' and '2025', made
    when both years are present. *)
Definition salon_growth (sales_data : SalesTable) : option (list GrowthRow) :=
  if existsb (String.eqb "2023") (years sales_data)
     && existsb (String.eqb "2025") (years sales_data)
  then Some (growth_data sales_data "2023" "2025")
  else None.

(** A row of the "Detailed Growth Table": every cell is text. *)
Record DisplayRow := {
  d_Outlet : string;
  d_Sales_base : string;
  d_Sales_compare : string;
  d_Growth_Amount : string;
  d_Growth_Percent : string
}.

Definition display_row (r : GrowthRow) : DisplayRow :=
  {| d_Outlet := Outlet r;
     d_Sales_base := (rupee ++ PyFloat.format_f true 0 (MTD_SALES_base r))%string;
     d_Sales_compare := (rupee ++ PyFloat.format_f true 0 (MTD_SALES_compare r))%string;
     d_Growth_Amount := (rupee ++ PyFloat.format_f true 0 (Growth_Amount r))%string;
     d_Growth_Percent := (PyFloat.format_f false 2 (Growth_Percent r) ++ "%")%string |}.

Definition display_growth (sales_data : SalesTable) (base_year compare_year : string)
    : list DisplayRow :=
  List.map display_row (growth_data sales_data base_year compare_year).

(** [st.selectbox(label, options, index=0)]: the option the user picked,
    any one of the list; nothing when the list is empty. *)
Definition selectbox (options : list string) (picked : nat) : option string :=
  nth_error options picked.

(** The options of the "Base Year" box, [years[:-1]]. *)
Definition base_year_options (years : list string) : list string := removelast years.

(** The options of the "Comparison Year" box,
    [[y for y in years if y > base_year]]. *)
Definition compare_year_options (years : list string) (base_year : string) : list string :=
  List.filter (fun y => String.ltb base_year y) years.

(** The two selections of the Year-to-Year Comparison, shown when
    [len(years) >= 2]; [picked_base] and [picked_compare] are what the user
    clicks. *)
Definition year_selection (sales_data : SalesTable) (picked_base picked_compare : nat)
    : option (string * option string) :=
  let years := years sales_data in
  if (2 <=? List.length years)%nat then
    match selectbox (base_year_options years) picked_base with
    | Some base_year =>
        Some (base_year, selectbox (compare_year_options years base_year) picked_compare)
    | None => None
    end
  else None.

(** The "Detailed Growth Table" for what the user picked. *)
Definition detailed_growth_table (sales_data : SalesTable) (picked_base picked_compare : nat)
    : option (list DisplayRow) :=
  match year_selection sales_data picked_base picked_compare with
  | Some (base_year, Some compare_year) =>
      Some (display_growth sales_data base_year compare_year)
  | _ => None
  end.

End Tab4.

(** ** Tab 3, "Service & Product Analysis": the service table *)

(** A row of [service_data].  The three last columns may be absent from
    the table or empty in a row: they hold a text or nothing. *)
Record ServiceRow := {
  Center_Name : string;
  Service_Type : string;
  Category : string;
  Service_Year : string;
  Total_Sales : float;
  Transaction_Count : float;
  Item_Category : option string;
  Business_Unit : option string;
  Item_Subcategory : option string
}.

Definition ServiceTable := list ServiceRow.

(** [col == selected] on a column that may hold nothing. *)
Definition holds (cell : option string) (selected : string) : bool :=
  match cell with
  | Some text => String.eqb text selected
  | None => false
  end.

(** [filtered_service_data]: the year always, the other selections unless
    they are "All" (as they are when their column is absent). *)
Definition filtered_service_data (service_data : ServiceTable)
    (selected_service_year selected_center selected_item_category selected_subcategory
     selected_business_unit selected_item_subcategory : string) : ServiceTable :=
  let keep_unless_all (selected : string) (test : ServiceRow -> bool) (df : ServiceTable) :=
    if negb (String.eqb selected "All") then List.filter test df else df in
  let df := List.filter (fun r => String.eqb (Service_Year r) selected_service_year)
                        service_data in
  let df := keep_unless_all selected_center
              (fun r => String.eqb (Center_Name r) selected_center) df in
  let df := keep_unless_all selected_item_category
              (fun r => String.eqb (Service_Type r) selected_item_category) df in
  let df := keep_unless_all selected_subcategory
              (fun r => holds (Item_Category r) selected_subcategory) df in
  let df := keep_unless_all selected_business_unit
              (fun r => holds (Business_Unit r) selected_business_unit) df in
  let df := keep_unless_all selected_item_subcategory
              (fun r => holds (Item_Subcategory r) selected_item_subcategory) df in
  df.

Module CenterGrowth.

(** A cell of [center_pivot]: the center's sales summed over the year, and
    a missing value when the center has no row in that year. *)
Definition pivot_cell (service_data : ServiceTable) (center year : string) : float :=
  let rows := List.filter (fun r => String.eqb (Center_Name r) center
                                    && String.eqb (Service_Year r) year) service_data in
  match rows with
  | [] => nan
  | _ => Pandas.Series_sum (List.map Total_Sales rows)
  end.

(** The guarded growth of the loop body:
    [((current / prev) - 1) * 100 if prev > 0 else float('inf')]. *)
Definition growth_pct (prev_sales current_sales : float) : float :=
  if (0 <? prev_sales)%float then (((current_sales / prev_sales) - 1) * 100)%float
  else infinity.

(** The consecutive pairs [(years[i-1], years[i])], [i] from 1. *)
Fixpoint consecutive (years : list string) : list (string * string) :=
  match years with
  | prev :: ((cur :: _) as rest) => (prev, cur) :: consecutive rest
  | _ => []
  end.

Definition years (service_data : ServiceTable) : list string :=
  Pandas.sorted_unique (List.map Service_Year service_data).

Definition centers (service_data : ServiceTable) : list string :=
  Pandas.sorted_unique (List.map Center_Name service_data).

(** One row of [growth_df]: the center and its growth columns, labelled
    ["Growth prev to cur"]. *)
Definition center_row (service_data : ServiceTable) (center : string)
    : string * list (string * float) :=
  (center,
   List.map (fun '(prev_year, current_year) =>
               (("Growth " ++ prev_year ++ " to " ++ current_year)%string,
                growth_pct (pivot_cell service_data center prev_year)
                           (pivot_cell service_data center current_year)))
            (consecutive (years service_data))).

(** [growth_df], sorted by the most recent growth column. *)
Definition growth_df (service_data : ServiceTable) : list (string * list (string * float)) :=
  Pandas.sort_values_float (fun row => snd (last (snd row) ("", nan))) false
    (List.map (center_row service_data) (centers service_data)).

(** The cell formatter of [display_growth]:
    [f"{x:.2f}%" if not pd.isna(x) and not np.isinf(x) else "N/A"]. *)
Definition display_cell (x : float) : string :=
  if negb (PyFloat.isna x) && negb (PyFloat.isinf x)
  then (PyFloat.format_f false 2 x ++ "%")%string else "N/A".

(** The table is made when there is more than one year,
    [if len(service_years) > 1]. *)
Definition display_growth (service_data : ServiceTable)
    : option (list (string * list (string * string))) :=
  if (1 <? List.length (years service_data))%nat then
    Some (List.map (fun row => (fst row,
                                List.map (fun c => (fst c, display_cell (snd c))) (snd row)))
                   (growth_df service_data))
  else None.

End CenterGrowth.

(** ** The specification's words, for comparison with the code *)

Module Spec.

(** [sum(P)] of the growth rule, for one outlet: the sum of its sales over
    the rows of the period. *)
Definition period_sum (sales_data : SalesTable) (year salon : string) : float :=
  Pandas.Series_sum
    (List.map MTD_SALES
       (List.filter (fun r => String.eqb (Year r) year && String.eqb (SALON_NAMES r) salon)
                    sales_data)).

(** [amount = sum(P1) - sum(P0)] and [percent = (sum(P1)/sum(P0) - 1) * 100]. *)
Definition amount (P0 P1 : float) : float := (P1 - P0)%float.
Definition percent (P0 P1 : float) : float := ((P1 / P0 - 1) * 100)%float.

End Spec.

(** ** Tab 3: service category and center metrics *)

Module ServiceMetrics.

(** [df.groupby(key).agg({'Total_Sales': 'sum', 'Transaction_Count': 'sum'})
    .reset_index()]: one row per key, keys ascending. *)
Definition groupby_agg (key : ServiceRow -> string) (df : ServiceTable)
    : list (string * float * float) :=
  List.map (fun k =>
              let rows := List.filter (fun r => String.eqb (key r) k) df in
              (k, Pandas.Series_sum (List.map Total_Sales rows),
                  Pandas.Series_sum (List.map Transaction_Count rows)))
           (Pandas.sorted_unique (List.map key df)).

(** An aggregate row with the derived column. *)
Record Aggregate := {
  Key : string;
  Sales : float;
  Count : float;
  Average_Transaction : float
}.

(** [agg['Average_Transaction'] = agg['Total_Sales'] / agg['Transaction_Count']]:
    a column division, made for every row. *)
Definition with_average (row : string * float * float) : Aggregate :=
  let '(k, sales, count) := row in
  {| Key := k; Sales := sales; Count := count;
     Average_Transaction := (sales / count)%float |}.

(** [category_details] before formatting. *)
Definition category_aggregate (filtered_service_data : ServiceTable) : list Aggregate :=
  List.map with_average (groupby_agg Service_Type filtered_service_data).

(** A row of the "Service Category Metrics" table as displayed. *)
Record CategoryDetail := {
  Service_Category : string;
  Total_Sales_text : string;
  Transaction_Count_shown : float;
  Average_Transaction_text : string
}.

Definition format_detail (a : Aggregate) : CategoryDetail :=
  {| Service_Category := Key a;
     Total_Sales_text := (rupee ++ PyFloat.format_f true 0 (Sales a))%string;
     Transaction_Count_shown := Count a;
     Average_Transaction_text := (rupee ++ PyFloat.format_f true 0 (Average_Transaction a))%string |}.

Definition category_details (filtered_service_data : ServiceTable) : list CategoryDetail :=
  List.map format_detail (category_aggregate filtered_service_data).

(** [center_sales]: the same aggregate per center, sorted by sales; the bar
    chart drawn from it reads the center and its sales. *)
Definition center_sales (filtered_service_data : ServiceTable) : list Aggregate :=
  Pandas.sort_values_float Sales false
    (List.map with_average (groupby_agg Center_Name filtered_service_data)).

End ServiceMetrics.

(** ** Tab 3: the category breakdown *)

Module Categories.

Record Row := {
  Business_Unit : string;
  Item_Category : string;
  Total_Sales : float;
  Total_Quantity : float
}.

(** [category_data.sort_values('Total_Sales', ascending=False).head(15)]. *)
Definition top_categories (category_data : list Row) : list Row :=
  firstn 15 (Pandas.sort_values_float Total_Sales false category_data).

(** The same table with its categories renamed. *)
Definition rename (f : string -> string) (r : Row) : Row :=
  {| Business_Unit := Business_Unit r;
     Item_Category := f (Item_Category r);
     Total_Sales := Total_Sales r;
     Total_Quantity := Total_Quantity r |}.

End Categories.

(** ** Months *)

Module Months.

Definition month_order : list string :=
  ["January"; "February"; "March"; "April"; "May"; "June";
   "July"; "August"; "September"; "October"; "November"; "December"].

Fixpoint index_of (m : string) (categories : list string) : option nat :=
  match categories with
  | [] => None
  | c :: rest => if String.eqb m c then Some O
                 else option_map S (index_of m rest)
  end.

(** The code of a month in
    [pd.Categorical(col, categories=month_order, ordered=True)]: its position
    in [month_order], and a missing value for any other text. *)
Definition Month_Sorted (m : string) : option nat := index_of m month_order.

Definition code_isna (c : option nat) : bool :=
  match c with None => true | Some _ => false end.

Definition code_leb (a b : option nat) : bool :=
  match a, b with
  | Some i, Some j => (i <=? j)%nat
  | _, _ => false
  end.

(** [df.sort_values('Month_Sorted')]. *)
Definition sort_by_month {A : Type} (month : A -> string) (df : list A) : list A :=
  Pandas.sort_values code_isna code_leb (fun r => Month_Sorted (month r)) true df.

(** Calendar order of a sequence of month names, as a display needs it:
    January to December, and names that are no month after them. *)
Fixpoint calendar_ordered_codes (codes : list (option nat)) : bool :=
  match codes with
  | a :: ((b :: _) as rest) =>
      match a, b with
      | Some i, Some j => (i <=? j)%nat
      | _, None => true
      | None, Some _ => false
      end && calendar_ordered_codes rest
  | _ => true
  end.

Definition calendar_ordered (months : list string) : bool :=
  calendar_ordered_codes (List.map Month_Sorted months).

End Months.

Module Tab1.

(** The group keys of a two-column [groupby]: distinct pairs, ascending by
    the first column and then the second. *)
Definition pair_eq_dec (a b : string * string) : {a = b} + {a <> b}.
Proof. decide equality; apply string_dec. Defined.

Definition pair_leb (a b : string * string) : bool :=
  if String.eqb (fst a) (fst b) then String.leb (snd a) (snd b)
  else String.leb (fst a) (fst b).

(** [filtered_data.groupby(['Month', 'Year'])['MTD SALES'].sum().reset_index()]. *)
Definition groupby_month_year (fd : SalesTable) : list (string * string * float) :=
  List.map (fun k =>
              (k, Pandas.Series_sum
                    (List.map MTD_SALES
                       (List.filter (fun r => String.eqb (Month r) (fst k)
                                              && String.eqb (Year r) (snd k)) fd))))
           (Pandas.stable_sort pair_leb
              (nodup pair_eq_dec (List.map (fun r => (Month r, Year r)) fd))).

(** [monthly_sales], sorted by [Month_Sorted], as handed to the trend chart. *)
Definition monthly_sales (fd : SalesTable) : list (string * string * float) :=
  Months.sort_by_month (fun row => fst (fst row)) (groupby_month_year fd).

(** The options of the "Select Month" box after "All":
    [sorted(sales_data['Month'].unique())], in the order of Python strings. *)
Definition months (sales_data : SalesTable) : list string :=
  Pandas.sorted_unique (List.map Month sales_data).

(** The month column of the "Monthly Sales Trend" chart. *)
Definition monthly_trend_x (fd : SalesTable) : list string :=
  List.map (fun row => fst (fst row)) (monthly_sales fd).

End Tab1.

Module TNagar.

(** [t_nagar_data = sales_data[sales_data['SALON NAMES'] == 'T NAGAR']]. *)
Definition t_nagar_data (sales_data : SalesTable) : SalesTable :=
  List.filter (fun r => String.eqb (SALON_NAMES r) "T NAGAR") sales_data.

(** The month column handed to [px.bar(t_nagar_data, x='Month', ...)]: the
    rows of [t_nagar_data] as they are, in table order. *)
Definition yearly_comparison_x (sales_data : SalesTable) : list string :=
  List.map Month (t_nagar_data sales_data).

End TNagar.

Module MonthByMonth.

(** [monthly_growth] of tab 4: the two years summed per month, merged on the
    month, with the growth column, sorted by [Month_Sorted]. *)
Definition monthly_growth (sales_data : SalesTable) (base_year compare_year : string)
    : list (string * float * float * float) :=
  let base_monthly :=
    Pandas.groupby_sum Month MTD_SALES (Tab4.year_data sales_data base_year) in
  let compare_monthly :=
    Pandas.groupby_sum Month MTD_SALES (Tab4.year_data sales_data compare_year) in
  Months.sort_by_month (fun row => fst (fst (fst row)))
    (List.map (fun '(month, base, compare) =>
                 (month, base, compare, (((compare / base) - 1) * 100)%float))
              (Pandas.merge base_monthly compare_monthly)).

(** The month column of the "Month-by-Month Growth" chart. *)
Definition monthly_growth_x (sales_data : SalesTable) (base_year compare_year : string)
    : list string :=
  List.map (fun row => fst (fst (fst row))) (monthly_growth sales_data base_year compare_year).

End MonthByMonth.

(** ** Exceptions *)

Module Py.

(** The exception classes the blob-store code meets, each with the text
    that [str(e)] gives. *)
Inductive exn : Type :=
| ClientError (code text : string)      (* botocore: e.response['Error']['Code'] *)
| BotoCoreError (text : string)         (* botocore failures that are no ClientError *)
| UnicodeDecodeError (text : string)
| EmptyDataError (text : string)        (* pandas.errors *)
| ParserError (text : string)           (* pandas.errors *)
| FileNotFoundError (text : string)
| Exception (text : string).            (* [raise Exception(...)] *)

Definition str (e : exn) : string :=
  match e with
  | ClientError _ text | BotoCoreError text | UnicodeDecodeError text
  | EmptyDataError text | ParserError text | FileNotFoundError text
  | Exception text => text
  end.

Inductive result (A : Type) : Type :=
| Ok (a : A)
| Raise (e : exn).

Arguments Ok {A} a.
Arguments Raise {A} e.

Definition bind {A B : Type} (r : result A) (k : A -> result B) : result B :=
  match r with
  | Ok a => k a
  | Raise e => Raise e
  end.

End Py.

Notation "'let!' x ':=' r 'in' k" := (Py.bind r (fun x => k))
  (at level 10, x name, r at level 100, k at level 200).

(** ** Tables as the blob store holds them: CSV text *)

Module Csv.

(** A cell of a DataFrame: an [int64], text (an [object] column), or a
    missing value.  Float, boolean and date columns are not modelled: text
    that pandas would read as such is kept as text here. *)
Inductive cell : Type :=
| VInt (z : Z)
| VStr (s : string)
| VNaN.

(** A DataFrame with the default integer index: its column names and its
    rows in order. *)
Record DataFrame := {
  columns : list string;
  rows : list (list cell)
}.

Definition comma : ascii := ","%char.
Definition dquote : ascii := "034"%char.
Definition LF : ascii := "010"%char.
Definition CR : ascii := "013"%char.

Definition special (c : ascii) : bool :=
  Ascii.eqb c comma || Ascii.eqb c dquote || Ascii.eqb c LF || Ascii.eqb c CR.

Fixpoint has_special (s : string) : bool :=
  match s with
  | EmptyString => false
  | String c s' => special c || has_special s'
  end.

Fixpoint escape (s : string) : string :=
  match s with
  | EmptyString => EmptyString
  | String c s' =>
      if Ascii.eqb c dquote then String dquote (String dquote (escape s'))
      else String c (escape s')
  end.

(** [csv.QUOTE_MINIMAL]: a field is quoted when it holds a separator, a
    quote or a line break, and its quotes are doubled.  (A carriage return
    counts as a line break here, as in CPython from 3.13 on; older versions
    quote the line feed only.) *)
Definition quote_field (s : string) : string :=
  if has_special s then String dquote (escape s ++ String dquote EmptyString)%string
  else s.

Fixpoint join_fields (fields : list string) : string :=
  match fields with
  | [] => EmptyString
  | [f] => f
  | f :: rest => (f ++ String comma (join_fields rest))%string
  end.

(** One line of the file; a row that is a single empty field is written as
    a pair of quotes, so that the line is not blank. *)
Definition write_row (fields : list string) : string :=
  match fields with
  | [EmptyString] => String dquote (String dquote (String LF EmptyString))
  | _ => (join_fields (List.map quote_field fields) ++ String LF EmptyString)%string
  end.

Definition str_of_int (z : Z) : string := NilZero.string_of_int (Z.to_int z).

(** How [to_csv] prints a cell; a missing value prints as nothing. *)
Definition render (c : cell) : string :=
  match c with
  | VInt z => str_of_int z
  | VStr s => s
  | VNaN => EmptyString
  end.

Fixpoint concat_lines (lines : list string) : string :=
  match lines with
  | [] => EmptyString
  | l :: rest => (l ++ concat_lines rest)%string
  end.

(** [df.to_csv(buffer, index=False)]: the header line, then one line per
    row; no index column is written. *)
Definition to_csv (df : DataFrame) : string :=
  concat_lines (write_row (columns df) :: List.map (fun r => write_row (List.map render r)) (rows df)).

(** The tokenizer of [pd.read_csv]. *)
Inductive tstate : Type :=
| FieldStart       (* nothing of the field read yet *)
| InField          (* inside an unquoted field *)
| InQuoted         (* inside a quoted field *)
| QuoteInQuoted    (* a quote seen inside a quoted field *)
| AfterCR.         (* a line ended by a carriage return *)

Definition snoc (s : string) (c : ascii) : string := (s ++ String c EmptyString)%string.

(** One character: the new state, field and row, and the line that this
    character completes, if any.  Blank lines are skipped. *)
Definition step (st : tstate) (fld : string) (row : list string) (c : ascii)
    : tstate * string * list string * option (list string) :=
  let plain st fld row :=
    if Ascii.eqb c comma then (FieldStart, EmptyString, row ++ [fld], None)
    else if Ascii.eqb c LF || Ascii.eqb c CR then
      let next := if Ascii.eqb c CR then AfterCR else FieldStart in
      match st, row with
      | FieldStart, [] => (next, EmptyString, [], None)
      | _, _ => (next, EmptyString, [], Some (row ++ [fld]))
      end
    else (InField, snoc fld c, row, None) in
  match st with
  | InQuoted =>
      if Ascii.eqb c dquote then (QuoteInQuoted, fld, row, None)
      else (InQuoted, snoc fld c, row, None)
  | QuoteInQuoted =>
      if Ascii.eqb c dquote then (InQuoted, snoc fld c, row, None)
      else plain QuoteInQuoted fld row
  | FieldStart =>
      if Ascii.eqb c dquote then (InQuoted, fld, row, None)
      else plain FieldStart fld row
  | InField =>
      if Ascii.eqb c dquote then (InField, snoc fld c, row, None)
      else plain InField fld row
  | AfterCR =>
      if Ascii.eqb c LF then (FieldStart, EmptyString, [], None)
      else if Ascii.eqb c dquote then (InQuoted, EmptyString, [], None)
      else plain FieldStart EmptyString []
  end.

Fixpoint tokenize (st : tstate) (fld : string) (row : list string) (input : string)
    : list (list string) :=
  match input with
  | EmptyString =>
      match st, row with
      | FieldStart, [] => []
      | AfterCR, _ => []
      | _, _ => [row ++ [fld]]
      end
  | String c rest =>
      let '(st', fld', row', line) := step st fld row c in
      match line with
      | Some l => l :: tokenize st' fld' row' rest
      | None => tokenize st' fld' row' rest
      end
  end.


Definition int64_min : Z := (- 2 ^ 63)%Z.
Definition int64_max : Z := (2 ^ 63 - 1)%Z.

(** The integer a field stands for, when it is a decimal literal of an
    [int64]: digits after an optional minus.  (pandas also takes a plus sign
    and blanks around the digits; no statement below is about such fields.) *)
Definition parse_int (s : string) : option Z :=
  match NilZero.int_of_string s with
  | Some d =>
      let z := Z.of_int d in
      if ((int64_min <=? z) && (z <=? int64_max))%Z then Some z else None
  | None => None
  end.

(** The texts that [read_csv] takes for a missing value. *)
Definition na_values : list string :=
  [EmptyString; "#N/A"; "#N/A N/A"; "#NA"; "-1.#IND"; "-1.#QNAN"; "-NaN"; "-nan";
   "1.#IND"; "1.#QNAN"; "<NA>"; "N/A"; "NA"; "NULL"; "NaN"; "None"; "n/a"; "nan"; "null"].

Definition is_na (s : string) : bool := existsb (String.eqb s) na_values.

Definition is_int (s : string) : bool :=
  match parse_int s with Some _ => true | None => false end.

(** Short lines are filled up with missing values. *)
Definition pad (n : nat) (fields : list string) : list string :=
  fields ++ repeat EmptyString (n - List.length fields).

(** The type of a column is inferred from all of its fields: it is an
    integer column when every field is an integer literal. *)
Definition col_is_int (data : list (list string)) (j : nat) : bool :=
  forallb (fun r => is_int (nth j r EmptyString)) data.

Definition convert (as_int : bool) (field : string) : cell :=
  if as_int then match parse_int field with Some z => VInt z | None => VNaN end
  else if is_na field then VNaN
  else VStr field.

Fixpoint convert_row (data : list (list string)) (j : nat) (fields : list string) : list cell :=
  match fields with
  | [] => []
  | f :: rest => convert (col_is_int data j) f :: convert_row data (S j) rest
  end.

(** [pd.read_csv(StringIO(text))]: the first line is the header, the other
    lines are the rows, and every column gets its type from its fields. *)
Definition read_csv (text : string) : Py.result DataFrame :=
  match tokenize FieldStart EmptyString [] text with
  | [] => Py.Raise (Py.EmptyDataError "No columns to parse from file")
  | header :: lines =>
      if existsb (fun l => (List.length header <? List.length l)%nat) lines
      then Py.Raise (Py.ParserError "Error tokenizing data")
      else
        let data := List.map (pad (List.length header)) lines in
        Py.Ok {| columns := header; rows := List.map (convert_row data 0) data |}
  end.

End Csv.

(** ** The blob store (s3_utils.py) *)

Module S3.

(** The body of a stored object: the UTF-8 encoding of some text, or bytes
    that are no UTF-8. *)
Inductive body : Type :=
| Utf8 (text : string)
| NotUtf8.

Inductive operation : Type := GetObject | PutObject | HeadObject.

(** What can go wrong with a call to the service: the service answers with
    an error code (botocore raises [ClientError]), or there is no answer
    (botocore raises one of its other exceptions, such as
    [EndpointConnectionError]). *)
Inductive failure : Type :=
| ServiceError (code text : string)
| TransportError (text : string).

Definition raised (f : failure) : Py.exn :=
  match f with
  | ServiceError code text => Py.ClientError code text
  | TransportError text => Py.BotoCoreError text
  end.

(** The store as one call sees it: whether [boto3.client] can be created,
    the objects by (bucket, key), and the failure that the service or the
    network answers a call with, if any. *)
Record Store := {
  client_failure : option Py.exn;
  objects : gmap (string * string) body;
  fault : operation -> string -> string -> option failure
}.

Definition with_objects (s : Store) (objs : gmap (string * string) body) : Store :=
  {| client_failure := client_failure s; objects := objs; fault := fault s |}.

(** [get_s3_client]: any failure is raised again as a plain [Exception]. *)
Definition get_s3_client (s : Store) : Py.result unit :=
  match client_failure s with
  | Some e => Py.Raise (Py.Exception ("Failed to create S3 client: " ++ Py.str e))
  | None => Py.Ok tt
  end.

(** [s3_client.get_object(Bucket=..., Key=...)]: a missing key is answered
    with the error code [NoSuchKey]. *)
Definition get_object (s : Store) (bucket key : string) : Py.result body :=
  match fault s GetObject bucket key with
  | Some f => Py.Raise (raised f)
  | None =>
      match objects s !! (bucket, key) with
      | Some b => Py.Ok b
      | None =>
          Py.Raise (Py.ClientError "NoSuchKey"
            "An error occurred (NoSuchKey) when calling the GetObject operation: The specified key does not exist.")
      end
  end.

(** [s3_client.head_object(...)]: a missing key is answered with [404]. *)
Definition head_object (s : Store) (bucket key : string) : Py.result unit :=
  match fault s HeadObject bucket key with
  | Some f => Py.Raise (raised f)
  | None =>
      match objects s !! (bucket, key) with
      | Some _ => Py.Ok tt
      | None =>
          Py.Raise (Py.ClientError "404"
            "An error occurred (404) when calling the HeadObject operation: Not Found")
      end
  end.

(** [s3_client.put_object(Bucket=..., Key=..., Body=text)]: the text is
    stored in its UTF-8 encoding.  A request that fails is taken as one the
    service did not apply; whether a failed request left the object written
    is outside what [save_df_to_s3] can tell, and no property of a failed
    write is stated on it. *)
Definition put_object (s : Store) (bucket key text : string) : Py.result unit * Store :=
  match fault s PutObject bucket key with
  | Some f => (Py.Raise (raised f), s)
  | None => (Py.Ok tt, with_objects s (<[(bucket, key) := Utf8 text]> (objects s)))
  end.

(** [response['Body'].read().decode('utf-8')]. *)
Definition decode (b : body) : Py.result string :=
  match b with
  | Utf8 text => Py.Ok text
  | NotUtf8 =>
      Py.Raise (Py.UnicodeDecodeError "'utf-8' codec can't decode byte: invalid start byte")
  end.

(** The [try] block of [read_csv_from_s3]. *)
Definition read_csv_from_s3_try (s : Store) (bucket_name file_key : string)
    : Py.result Csv.DataFrame :=
  let! _ := get_s3_client s in
  let! response := get_object s bucket_name file_key in
  let! csv_content := decode response in
  Csv.read_csv csv_content.

(** [read_csv_from_s3]: the [except ClientError] clause turns [NoSuchKey]
    into [FileNotFoundError] and any other [ClientError] into [Exception];
    exceptions of other classes pass through. *)
Definition read_csv_from_s3 (s : Store) (bucket_name file_key : string)
    : Py.result Csv.DataFrame :=
  match read_csv_from_s3_try s bucket_name file_key with
  | Py.Raise (Py.ClientError code text) =>
      if String.eqb code "NoSuchKey"
      then Py.Raise (Py.FileNotFoundError
                       ("File " ++ file_key ++ " not found in bucket " ++ bucket_name))
      else Py.Raise (Py.Exception ("Error reading file from S3: " ++ text))
  | r => r
  end.

(** [save_df_to_s3]: the table is written without its index; the
    [except Exception] clause raises every failure again as [Exception]. *)
Definition save_df_to_s3 (df : Csv.DataFrame) (s : Store) (bucket_name file_key : string)
    : Py.result unit * Store :=
  let wrap e := Py.Raise (Py.Exception ("Error saving file to S3: " ++ Py.str e)) in
  match get_s3_client s with
  | Py.Raise e => (wrap e, s)
  | Py.Ok _ =>
      let csv_buffer := Csv.to_csv df in
      match put_object s bucket_name file_key csv_buffer with
      | (Py.Raise e, s') => (wrap e, s')
      | (Py.Ok _, s') => (Py.Ok tt, s')
      end
  end.

(** [check_file_exists_in_s3]. *)
Definition check_file_exists_in_s3 (s : Store) (bucket_name file_key : string)
    : Py.result bool :=
  match (let! _ := get_s3_client s in head_object s bucket_name file_key) with
  | Py.Ok _ => Py.Ok true
  | Py.Raise (Py.ClientError code text) =>
      if String.eqb code "404" then Py.Ok false
      else Py.Raise (Py.Exception ("Error checking file existence in S3: " ++ text))
  | Py.Raise e => Py.Raise e
  end.

(** The error kinds of the specification. *)
Inductive error_kind : Type := NotFound | StorageError.

Definition kind_of (e : Py.exn) : error_kind :=
  match e with
  | Py.FileNotFoundError _ => NotFound
  | _ => StorageError
  end.

End S3.

(** ** Loading the data ([load_data], under [st.cache_data]) *)

Module Load.

(** The process as [load_data] sees it: the blob store, the entry that
    [st.cache_data] keeps for [load_data] (the function takes no argument, so
    there is one key), and two counters that the program does not have: how
    often the body of [load_data] and [preprocess_sales_data] have run. *)
Record World := {
  store : S3.Store;
  cache_data : option (Csv.DataFrame * Csv.DataFrame);
  body_runs : nat;
  preprocess_runs : nat
}.

Section LoadData.

(** [st.secrets]. *)
Variables S3_BUCKET S3_PREFIX : string.

(** The two functions of [process_data.py], which is not among the sources:
    each may read and write the store and may raise. *)
Variable preprocess_sales_data : S3.Store -> Py.result Csv.DataFrame * S3.Store.
Variable load_processed_service_data : S3.Store -> Py.result Csv.DataFrame * S3.Store.

Definition processed_key : string := (S3_PREFIX ++ "processed_sales_data.csv")%string.

(** The sales table: read from the store when the processed file is there,
    computed otherwise. *)
Definition load_sales (w : World) : Py.result Csv.DataFrame * World :=
  match S3.check_file_exists_in_s3 (store w) S3_BUCKET processed_key with
  | Py.Raise e => (Py.Raise e, w)
  | Py.Ok true => (S3.read_csv_from_s3 (store w) S3_BUCKET processed_key, w)
  | Py.Ok false =>
      let '(r, s) := preprocess_sales_data (store w) in
      (r, {| store := s; cache_data := cache_data w; body_runs := body_runs w;
             preprocess_runs := S (preprocess_runs w) |})
  end.

(** The body of [load_data]. *)
Definition load_data_body (w : World) : Py.result (Csv.DataFrame * Csv.DataFrame) * World :=
  let w := {| store := store w; cache_data := cache_data w;
              body_runs := S (body_runs w); preprocess_runs := preprocess_runs w |} in
  match load_sales w with
  | (Py.Raise e, w) => (Py.Raise e, w)
  | (Py.Ok sales_data, w) =>
      let '(r, s) := load_processed_service_data (store w) in
      let w := {| store := s; cache_data := cache_data w; body_runs := body_runs w;
                  preprocess_runs := preprocess_runs w |} in
      match r with
      | Py.Raise e => (Py.Raise e, w)
      | Py.Ok service_data => (Py.Ok (sales_data, service_data), w)
      end
  end.

(** [@st.cache_data def load_data()]: a call finds the entry and returns it,
    or runs the body and, when the body returns, keeps what it returned. *)
Definition load_data (w : World) : Py.result (Csv.DataFrame * Csv.DataFrame) * World :=
  match cache_data w with
  | Some v => (Py.Ok v, w)
  | None =>
      match load_data_body w with
      | (Py.Ok v, w') =>
          (Py.Ok v, {| store := store w'; cache_data := Some v;
                       body_runs := body_runs w'; preprocess_runs := preprocess_runs w' |})
      | (Py.Raise e, w') => (Py.Raise e, w')
      end
  end.

(** [n] calls of [load_data] one after the other, as the reruns of the
    script make them: what each returned, and the process afterwards. *)
Fixpoint calls (n : nat) (w : World)
    : list (Py.result (Csv.DataFrame * Csv.DataFrame)) * World :=
  match n with
  | O => ([], w)
  | S n' =>
      let '(r, w') := load_data w in
      let '(rs, w'') := calls n' w' in
      (r :: rs, w'')
  end.

End LoadData.

End Load.

(** ** Writing a table and reading it back *)

Module RoundTrip.



















End RoundTrip.

(** ** Sample tables and stores *)

Definition sales_no_bills : SalesTable :=
  [ {| SALON_NAMES := "T NAGAR"; BRAND := "NATURALS"; Year := "2023"; Month := "January";
       MTD_SALES := 500; MTD_BILLS := 0 |} ].

Definition sales_with_bills : SalesTable :=
  [ {| SALON_NAMES := "T NAGAR"; BRAND := "NATURALS"; Year := "2023"; Month := "January";
       MTD_SALES := 500; MTD_BILLS := 4 |};
    {| SALON_NAMES := "ADYAR"; BRAND := "NATURALS"; Year := "2023"; Month := "January";
       MTD_SALES := 250; MTD_BILLS := 2 |} ].

Definition t_nagar_2023_2025 : SalesTable :=
  [ {| SALON_NAMES := "T NAGAR"; BRAND := "NATURALS"; Year := "2023"; Month := "January";
       MTD_SALES := 100000; MTD_BILLS := 80 |};
    {| SALON_NAMES := "T NAGAR"; BRAND := "NATURALS"; Year := "2025"; Month := "January";
       MTD_SALES := 150000; MTD_BILLS := 90 |} ].

Definition zero_base_sales : SalesTable :=
  [ {| SALON_NAMES := "T NAGAR"; BRAND := "NATURALS"; Year := "2023"; Month := "January";
       MTD_SALES := 0; MTD_BILLS := 0 |};
    {| SALON_NAMES := "T NAGAR"; BRAND := "NATURALS"; Year := "2025"; Month := "January";
       MTD_SALES := 100; MTD_BILLS := 1 |} ].

Definition zero_base_service : ServiceTable :=
  [ {| Center_Name := "T NAGAR"; Service_Type := "Hair"; Category := "Service";
       Service_Year := "2023"; Total_Sales := 0; Transaction_Count := 0;
       Item_Category := None; Business_Unit := Some "Hair"; Item_Subcategory := None |};
    {| Center_Name := "T NAGAR"; Service_Type := "Hair"; Category := "Service";
       Service_Year := "2025"; Total_Sales := 100; Transaction_Count := 1;
       Item_Category := None; Business_Unit := Some "Hair"; Item_Subcategory := None |} ].

Definition three_years : SalesTable :=
  [ {| SALON_NAMES := "T NAGAR"; BRAND := "NATURALS"; Year := "2025"; Month := "March";
       MTD_SALES := 300; MTD_BILLS := 3 |};
    {| SALON_NAMES := "T NAGAR"; BRAND := "NATURALS"; Year := "2023"; Month := "March";
       MTD_SALES := 100; MTD_BILLS := 1 |};
    {| SALON_NAMES := "ADYAR"; BRAND := "NATURALS"; Year := "2024"; Month := "March";
       MTD_SALES := 200; MTD_BILLS := 2 |};
    {| SALON_NAMES := "ADYAR"; BRAND := "NATURALS"; Year := "2023"; Month := "April";
       MTD_SALES := 150; MTD_BILLS := 2 |} ].

Definition zero_count_service : ServiceTable :=
  [ {| Center_Name := "T NAGAR"; Service_Type := "Hair"; Category := "Service";
       Service_Year := "2024"; Total_Sales := 100; Transaction_Count := 0;
       Item_Category := None; Business_Unit := Some "Hair"; Item_Subcategory := None |};
    {| Center_Name := "ADYAR"; Service_Type := "Skin"; Category := "Service";
       Service_Year := "2024"; Total_Sales := 900; Transaction_Count := 3;
       Item_Category := None; Business_Unit := Some "Hair"; Item_Subcategory := None |} ].

Definition tied_categories : list Categories.Row :=
  [ {| Categories.Business_Unit := "Hair"; Categories.Item_Category := "Styling";
       Categories.Total_Sales := 500; Categories.Total_Quantity := 10 |};
    {| Categories.Business_Unit := "Hair"; Categories.Item_Category := "Colour";
       Categories.Total_Sales := 500; Categories.Total_Quantity := 8 |};
    {| Categories.Business_Unit := "Skin"; Categories.Item_Category := "Facial";
       Categories.Total_Sales := 700; Categories.Total_Quantity := 5 |} ].

Definition february_first : SalesTable :=
  [ {| SALON_NAMES := "T NAGAR"; BRAND := "NATURALS"; Year := "2023"; Month := "February";
       MTD_SALES := 10; MTD_BILLS := 1 |};
    {| SALON_NAMES := "T NAGAR"; BRAND := "NATURALS"; Year := "2023"; Month := "January";
       MTD_SALES := 20; MTD_BILLS := 2 |} ].

Definition year_sales_csv : string :=
  "Year,Sales
2023,5
".

Definition store_with_table : S3.Store :=
  {| S3.client_failure := None;
     S3.objects := {[ ("dashboard", "data/processed_sales_data.csv") := S3.Utf8 year_sales_csv ]};
     S3.fault := fun _ _ _ => None |}.

Definition empty_store : S3.Store :=
  {| S3.client_failure := None; S3.objects := ∅; S3.fault := fun _ _ _ => None |}.

Definition year_as_text : Csv.DataFrame :=
  {| Csv.columns := ["Year"; "SALON NAMES"];
     Csv.rows := [ [Csv.VStr "2023"; Csv.VStr "T NAGAR"] ] |}.

Definition outlet_sales : Csv.DataFrame :=
  {| Csv.columns := ["SALON NAMES"; "MTD SALES"];
     Csv.rows := [ [Csv.VStr "T NAGAR"; Csv.VInt 100];
                   [Csv.VStr "ADYAR"; Csv.VInt (-250)] ] |}.


Definition service_table : Csv.DataFrame :=
  {| Csv.columns := ["Center Name"; "Total_Sales"];
     Csv.rows := [ [Csv.VStr "T NAGAR"; Csv.VInt 900] ] |}.

(** A [preprocess_sales_data] that computes a table and saves it. *)
Definition preprocess_and_save (s : S3.Store) : Py.result Csv.DataFrame * S3.Store :=
  match S3.save_df_to_s3 outlet_sales s "dashboard" "data/processed_sales_data.csv" with
  | (Py.Ok _, s') => (Py.Ok outlet_sales, s')
  | (Py.Raise e, s') => (Py.Raise e, s')
  end.

Definition load_service_table (s : S3.Store) : Py.result Csv.DataFrame * S3.Store :=
  (Py.Ok service_table, s).

Definition fresh_process : Load.World :=
  {| Load.store := empty_store; Load.cache_data := None;
     Load.body_runs := 0; Load.preprocess_runs := 0 |}.

(** ** Further parts of the blob store and the script *)

Module S3More.

(** [isinstance(e, ClientError)]. *)
Definition is_client_error (e : Py.exn) : bool :=
  match e with
  | Py.ClientError _ _ => true
  | _ => false
  end.

(** Whether a key is in the bucket. *)
Definition present (s : S3.Store) (bucket key : string) : bool :=
  match S3.objects s !! (bucket, key) with
  | Some _ => true
  | None => false
  end.

End S3More.

(** A store that refuses every call, and a machine without credentials. *)
Definition store_denied : S3.Store :=
  {| S3.client_failure := None;
     S3.objects := {[ ("dashboard", "data/processed_sales_data.csv") := S3.Utf8 year_sales_csv ]};
     S3.fault := fun _ _ _ =>
       Some (S3.ServiceError "403"
               "An error occurred (403) when calling the HeadObject operation: Forbidden") |}.

(** A store that refuses writes. *)
Definition store_read_only : S3.Store :=
  {| S3.client_failure := None;
     S3.objects := ∅;
     S3.fault := fun op _ _ =>
       match op with
       | S3.PutObject =>
           Some (S3.ServiceError "AccessDenied"
                   "An error occurred (AccessDenied) when calling the PutObject operation: Access Denied")
       | _ => None
       end |}.

Definition store_no_client : S3.Store :=
  {| S3.client_failure := Some (Py.BotoCoreError "You must specify a region.");
     S3.objects := ∅;
     S3.fault := fun _ _ _ => None |}.

(** A store whose processed file is no text, and processes that start on
    these stores. *)
Definition store_bad_file : S3.Store :=
  {| S3.client_failure := None;
     S3.objects := {[ ("dashboard", "data/processed_sales_data.csv") := S3.NotUtf8 ]};
     S3.fault := fun _ _ _ => None |}.

Definition process_on (s : S3.Store) : Load.World :=
  {| Load.store := s; Load.cache_data := None;
     Load.body_runs := 0; Load.preprocess_runs := 0 |}.

Module Tab1More.

(** [total_outlets = filtered_data['SALON NAMES'].nunique()]. *)
Definition total_outlets (fd : SalesTable) : nat :=
  List.length (nodup string_dec (List.map SALON_NAMES fd)).

(** [salon_sales]: the sales summed per outlet, sorted by sales, largest
    first; one bar of the "MTD Sales by Outlet" chart per row. *)
Definition salon_sales (fd : SalesTable) : list (string * float) :=
  Pandas.sort_values_float snd false (Pandas.groupby_sum SALON_NAMES MTD_SALES fd).

(** What a row must satisfy to pass a selection. *)
Definition selected (choice : string) (value : string) : bool :=
  String.eqb choice "All" || String.eqb value choice.

End Tab1More.

Module Tab4More.

(** [overall_growth = ((total_compare / total_base) - 1) * 100] and the
    text of the "Overall Growth" metric, [f"{overall_growth:.2f}%"]. *)
Definition overall_growth (sales_data : SalesTable) (base_year compare_year : string) : float :=
  let total_base := total_sales (Tab4.year_data sales_data base_year) in
  let total_compare := total_sales (Tab4.year_data sales_data compare_year) in
  (((total_compare / total_base) - 1) * 100)%float.

Definition overall_growth_metric (sales_data : SalesTable) (base_year compare_year : string)
    : string :=
  (PyFloat.format_f false 2 (overall_growth sales_data base_year compare_year) ++ "%")%string.

End Tab4More.


(** A service table in which ADYAR has no rows in 2023 and ANNA NAGAR none
    in 2024. *)
Definition centers_missing_years : ServiceTable :=
  [ {| Center_Name := "T NAGAR"; Service_Type := "Hair"; Category := "Service";
       Service_Year := "2023"; Total_Sales := 100; Transaction_Count := 2;
       Item_Category := Some "Cut"; Business_Unit := Some "Hair"; Item_Subcategory := None |};
    {| Center_Name := "T NAGAR"; Service_Type := "Hair"; Category := "Service";
       Service_Year := "2024"; Total_Sales := 150; Transaction_Count := 3;
       Item_Category := Some "Cut"; Business_Unit := Some "Hair"; Item_Subcategory := None |};
    {| Center_Name := "ADYAR"; Service_Type := "Skin"; Category := "Service";
       Service_Year := "2024"; Total_Sales := 900; Transaction_Count := 3;
       Item_Category := None; Business_Unit := Some "Skin"; Item_Subcategory := None |};
    {| Center_Name := "ANNA NAGAR"; Service_Type := "Skin"; Category := "Service";
       Service_Year := "2023"; Total_Sales := 400; Transaction_Count := 4;
       Item_Category := Some "Facial"; Business_Unit := Some "Skin";
       Item_Subcategory := None |} ].
(** * Properties *)

(** ** Formatting, checked on values *)

Example format_f_50 : PyFloat.format_f false 2 50 = "50.00".
Proof. vm_compute. reflexivity. Qed.
Example format_f_group : PyFloat.format_f true 0 1234567.5 = "1,234,568".
Proof. vm_compute. reflexivity. Qed.
Example format_f_half_even : PyFloat.format_f false 2 0.125 = "0.12".
Proof. vm_compute. reflexivity. Qed.
Example format_f_neg_small : PyFloat.format_f false 2 (-0x1p-10) = "-0.00".
Proof. vm_compute. reflexivity. Qed.
Example format_f_carry : PyFloat.format_f true 1 999.96875 = "1,000.0".
Proof. vm_compute. reflexivity. Qed.
Example format_f_inf : PyFloat.format_f false 2 infinity = "inf".
Proof. vm_compute. reflexivity. Qed.
Example format_f_nan : PyFloat.format_f true 0 nan = "nan".
Proof. vm_compute. reflexivity. Qed.

(** ** Facts about binary64 values *)

Section FloatFacts.

Lemma Prim2SF_zero : Prim2SF 0 = S754_zero false.
Proof. reflexivity. Qed.

(** [x == 0] holds for the two zeros only. *)
Lemma eqb_zero_inv (x : float) :
  (x =? 0)%float = true -> exists s, Prim2SF x = S754_zero s.
Proof.
  rewrite eqb_spec, Prim2SF_zero.
  destruct (Prim2SF x) as [s | s | | s m e]; simpl; try discriminate.
  - eauto.
  - destruct s; discriminate.
  - destruct s; discriminate.
Qed.

Lemma eqb_zero_not_pos (x : float) :
  (x =? 0)%float = true -> (0 <? x)%float = false.
Proof.
  intros H. destruct (eqb_zero_inv x H) as [s Hs].
  rewrite ltb_spec, Hs. reflexivity.
Qed.

(** A quotient by zero is never a finite number. *)
Lemma div_by_zero (x y : float) :
  (y =? 0)%float = true ->
  PyFloat.isna (x / y) = true \/ PyFloat.isinf (x / y) = true.
Proof.
  intros H. destruct (eqb_zero_inv y H) as [s Hs].
  pose proof (div_spec x y) as D. rewrite Hs in D.
  rewrite <- (SF2Prim_Prim2SF (x / y)), D.
  destruct (Prim2SF x) as [sx | sx | | sx mx ex]; simpl.
  - left. reflexivity.
  - right. destruct sx, s; reflexivity.
  - left. reflexivity.
  - right. destruct sx, s; reflexivity.
Qed.

End FloatFacts.

(** ** Tab 1: the average bill value *)

(** C3. For every filtered sales table the average bill value is the total
    sales divided by the total bills when the total bills are positive, and
    it is exactly 0 (shown as the label with "0") when the total bills are 0:
    the quotient is not evaluated in that case, so nothing can be raised. *)
Theorem avg_bill_value_guarded (sales_data : SalesTable)
    (selected_year selected_brand selected_month : string) :
  let fd := filtered_data sales_data selected_year selected_brand selected_month in
  ((0 <? total_bills fd)%float = true ->
     avg_bill_value fd = (total_sales fd / total_bills fd)%float) /\
  ((total_bills fd =? 0)%float = true ->
     avg_bill_value fd = 0%float /\
     avg_bill_value_metric fd = (rupee ++ "0")%string).
Proof.
  intros fd. unfold avg_bill_value_metric, avg_bill_value. split.
  - intros ->. reflexivity.
  - intros H. rewrite (eqb_zero_not_pos _ H). split; reflexivity.
Qed.

Lemma avg_bill_value_guarded_witness :
  avg_bill_value (filtered_data sales_with_bills "2023" "All" "All") = 125%float /\
  avg_bill_value (filtered_data sales_no_bills "2023" "All" "January") = 0%float.
Proof.
  split.
  - rewrite (proj1 (avg_bill_value_guarded sales_with_bills "2023" "All" "All"));
      reflexivity.
  - apply (proj2 (avg_bill_value_guarded sales_no_bills "2023" "All" "January")).
    reflexivity.
Defined.

(** ** Sorting, grouping and merging *)

Section SortFacts.
Context {A : Type} (leb : A -> A -> bool).

Let le (a b : A) : Prop := leb a b = true.

Lemma insert_sorted_perm (x : A) (l : list A) :
  Permutation (Pandas.insert_sorted leb x l) (x :: l).
Proof.
  induction l as [| y l IH]; simpl.
  - apply Permutation_refl.
  - destruct (leb x y).
    + apply Permutation_refl.
    + apply Permutation_trans with (y :: x :: l).
      * apply perm_skip, IH.
      * apply perm_swap.
Qed.

Lemma stable_sort_perm (l : list A) : Permutation (Pandas.stable_sort leb l) l.
Proof.
  induction l as [| x l IH]; simpl.
  - apply perm_nil.
  - eapply Permutation_trans; [apply insert_sorted_perm |].
    apply perm_skip, IH.
Qed.

Lemma stable_sort_In (l : list A) (x : A) : In x (Pandas.stable_sort leb l) <-> In x l.
Proof.
  split; apply Permutation_in; [| apply Permutation_sym]; apply stable_sort_perm.
Qed.

(** Sortedness needs the order to be total on the keys that occur: [P]
    singles them out (for floats, the keys that are numbers). *)
Variable P : A -> Prop.
Hypothesis leb_total_on : forall x y, P x -> P y -> leb x y = true \/ leb y x = true.

Lemma insert_sorted_Sorted (x : A) (l : list A) :
  P x -> Forall P l -> Sorted le l -> Sorted le (Pandas.insert_sorted leb x l).
Proof.
  intros Px Pl Hs. induction Hs as [| y l Hs IH Hd]; simpl.
  - repeat constructor.
  - inversion Pl as [| ? ? Py Pl']; subst.
    destruct (leb x y) eqn:E.
    + constructor; [constructor; assumption | constructor; exact E].
    + constructor; [apply IH; assumption |].
      assert (Hyx : le y x).
      { destruct (leb_total_on x y Px Py) as [H | H]; [congruence | exact H]. }
      destruct Hd as [| z l' Hyz]; simpl.
      * constructor. exact Hyx.
      * destruct (leb x z); constructor; assumption.
Qed.

Lemma stable_sort_Sorted (l : list A) : Forall P l -> Sorted le (Pandas.stable_sort leb l).
Proof.
  induction 1 as [| x l Px Pl IH]; simpl.
  - constructor.
  - apply insert_sorted_Sorted; [exact Px | | exact IH].
    apply Forall_forall. intros y Hy.
    apply (proj1 (stable_sort_In l y)) in Hy.
    revert y Hy. apply Forall_forall. exact Pl.
Qed.
End SortFacts.

Section ListFacts.
Context {A : Type}.

Lemma filter_partition_perm (f : A -> bool) (l : list A) :
  Permutation (List.filter (fun r => negb (f r)) l ++ List.filter f l) l.
Proof.
  induction l as [| x l IH]; simpl.
  - apply perm_nil.
  - destruct (f x); simpl.
    + apply Permutation_sym, Permutation_cons_app, Permutation_sym, IH.
    + apply perm_skip, IH.
Qed.

(** An adjacent-sorted list stays so when an element not below its last
    one is appended. *)
Lemma Sorted_snoc (R : A -> A -> Prop) (l : list A) (x : A) :
  Sorted R l -> (forall d, l <> [] -> R (last l d) x) -> Sorted R (l ++ [x]).
Proof.
  induction 1 as [| y l Hs IH Hd]; intros Hlast; simpl.
  - repeat constructor.
  - constructor.
    + apply IH. intros d Hne. specialize (Hlast d).
      destruct l; [congruence |]. apply Hlast. discriminate.
    + destruct Hd as [| z l' Hyz]; simpl.
      * constructor. apply (Hlast y). discriminate.
      * constructor. exact Hyz.
Qed.

Lemma last_rev_hd (l : list A) (d : A) : last (rev l) d = hd d l.
Proof.
  destruct l as [| x l]; simpl; [reflexivity |]. apply last_last.
Qed.

Lemma Sorted_rev (R : A -> A -> Prop) (l : list A) :
  Sorted R l -> Sorted (fun a b => R b a) (rev l).
Proof.
  induction 1 as [| y l Hs IH Hd]; simpl.
  - constructor.
  - apply Sorted_snoc; [exact IH |].
    intros d Hne. rewrite last_rev_hd.
    destruct Hd as [| z l' Hyz]; simpl; [contradiction Hne; reflexivity | exact Hyz].
Qed.
End ListFacts.

Lemma sort_values_perm {A K : Type} (isna : K -> bool) (leb : K -> K -> bool)
    (by_ : A -> K) (ascending : bool) (df : list A) :
  Permutation (Pandas.sort_values isna leb by_ ascending df) df.
Proof.
  unfold Pandas.sort_values.
  eapply Permutation_trans; [| apply (filter_partition_perm (fun r => isna (by_ r)))].
  apply Permutation_app_tail.
  destruct ascending.
  - apply stable_sort_perm.
  - eapply Permutation_trans; [apply Permutation_sym, Permutation_rev |].
    eapply Permutation_trans; [apply stable_sort_perm |].
    apply Permutation_sym, Permutation_rev.
Qed.

Lemma sort_values_In {A K : Type} (isna : K -> bool) (leb : K -> K -> bool)
    (by_ : A -> K) (ascending : bool) (df : list A) (r : A) :
  In r (Pandas.sort_values isna leb by_ ascending df) <-> In r df.
Proof.
  split; apply Permutation_in; [| apply Permutation_sym]; apply sort_values_perm.
Qed.

(** The group keys are exactly the values of the key column. *)
Lemma sorted_unique_In (keys : list string) (k : string) :
  In k (Pandas.sorted_unique keys) <-> In k keys.
Proof.
  unfold Pandas.sorted_unique. rewrite stable_sort_In. apply nodup_In.
Qed.

Lemma sorted_unique_NoDup (keys : list string) : NoDup (Pandas.sorted_unique keys).
Proof.
  unfold Pandas.sorted_unique.
  eapply Permutation_NoDup; [apply Permutation_sym, stable_sort_perm |].
  apply NoDup_nodup.
Qed.

Lemma groupby_sum_In {A : Type} (key : A -> string) (col : A -> float) (df : list A)
    (k : string) (v : float) :
  In (k, v) (Pandas.groupby_sum key col df) <->
  In k (List.map key df) /\
  v = Pandas.Series_sum (List.map col (List.filter (fun r => String.eqb (key r) k) df)).
Proof.
  unfold Pandas.groupby_sum. rewrite in_map_iff. split.
  - intros [k' [E Hk]]. inversion E; subst. split; [| reflexivity].
    apply sorted_unique_In. exact Hk.
  - intros [Hk ->]. exists k. split; [reflexivity |]. apply sorted_unique_In. exact Hk.
Qed.

Lemma merge_In (left right : list (string * float)) (k : string) (a b : float) :
  In (k, a, b) (Pandas.merge left right) <-> In (k, a) left /\ In (k, b) right.
Proof.
  unfold Pandas.merge. rewrite in_flat_map. split.
  - intros [[k' a'] [Hl Hr]]. simpl in Hr. apply in_map_iff in Hr.
    destruct Hr as [[k2 b'] [E Hf]]. simpl in E. inversion E; subst.
    apply filter_In in Hf. destruct Hf as [Hr Hk]. simpl in Hk.
    apply String.eqb_eq in Hk. subst. auto.
  - intros [Hl Hr]. exists (k, a). split; [exact Hl |]. simpl.
    apply in_map_iff. exists (k, b). split; [reflexivity |].
    apply filter_In. split; [exact Hr |]. simpl. apply String.eqb_refl.
Qed.

(** ** Tab 4: growth between two periods *)

Lemma filter_filter_andb {A : Type} (f g : A -> bool) (l : list A) :
  List.filter g (List.filter f l) = List.filter (fun r => f r && g r) l.
Proof.
  induction l as [| x l IH]; simpl; [reflexivity |].
  destruct (f x); simpl; [destruct (g x) |]; rewrite IH; reflexivity.
Qed.

(** What [by_salon] holds for an outlet of a year is the specification's
    period sum. *)
Lemma by_salon_year_In (sales_data : SalesTable) (year salon : string) (v : float) :
  In (salon, v) (Tab4.by_salon (Tab4.year_data sales_data year)) <->
  In salon (List.map SALON_NAMES (Tab4.year_data sales_data year)) /\
  v = Spec.period_sum sales_data year salon.
Proof.
  unfold Tab4.by_salon. rewrite groupby_sum_In.
  unfold Tab4.year_data, Spec.period_sum. rewrite filter_filter_andb. reflexivity.
Qed.

Lemma growth_data_In (sales_data : SalesTable) (base_year compare_year : string)
    (r : Tab4.GrowthRow) :
  In r (Tab4.growth_data sales_data base_year compare_year) <->
  exists salon,
    In salon (List.map SALON_NAMES (Tab4.year_data sales_data base_year)) /\
    In salon (List.map SALON_NAMES (Tab4.year_data sales_data compare_year)) /\
    r = Tab4.with_growth (salon, Spec.period_sum sales_data base_year salon,
                          Spec.period_sum sales_data compare_year salon).
Proof.
  unfold Tab4.growth_data, Pandas.sort_values_float.
  rewrite sort_values_In, in_map_iff. split.
  - intros [[[salon b] c] [E Hm]]. apply merge_In in Hm. destruct Hm as [Hb Hc].
    apply by_salon_year_In in Hb. apply by_salon_year_In in Hc.
    destruct Hb as [Hb ->]. destruct Hc as [Hc ->]. exists salon. auto.
  - intros [salon [Hb [Hc ->]]].
    eexists. split; [reflexivity |].
    apply merge_In. split; apply by_salon_year_In; auto.
Qed.

(** C2. Growth between a base period P0 and a compare period P1: every row
    of the growth table carries, for its outlet, amount = sum(P1) - sum(P0)
    and, when sum(P0) > 0, percent = (sum(P1)/sum(P0) - 1) * 100; every outlet
    with rows in both periods has such a row.  In particular base 100 and
    compare 150 give amount 50 and percent 50.0, and an outlet with 100000 in
    2023 and 150000 in 2025 gets amount 50000 and percent 50.0. *)
Theorem growth_amount_and_percent :
  (forall (sales_data : SalesTable) (base_year compare_year : string) (r : Tab4.GrowthRow),
      In r (Tab4.growth_data sales_data base_year compare_year) ->
      let P0 := Spec.period_sum sales_data base_year (Tab4.Outlet r) in
      let P1 := Spec.period_sum sales_data compare_year (Tab4.Outlet r) in
      Tab4.MTD_SALES_base r = P0 /\
      Tab4.MTD_SALES_compare r = P1 /\
      Tab4.Growth_Amount r = Spec.amount P0 P1 /\
      ((0 <? P0)%float = true -> Tab4.Growth_Percent r = Spec.percent P0 P1)) /\
  (forall (sales_data : SalesTable) (base_year compare_year salon : string),
      In salon (List.map SALON_NAMES (Tab4.year_data sales_data base_year)) ->
      In salon (List.map SALON_NAMES (Tab4.year_data sales_data compare_year)) ->
      exists r, In r (Tab4.growth_data sales_data base_year compare_year) /\
                Tab4.Outlet r = salon) /\
  (forall salon : string,
      Tab4.Growth_Amount (Tab4.with_growth (salon, 100, 150)%float) = 50%float /\
      Tab4.Growth_Percent (Tab4.with_growth (salon, 100, 150)%float) = 50%float) /\
  Tab4.salon_growth t_nagar_2023_2025 =
    Some [ {| Tab4.Outlet := "T NAGAR";
              Tab4.MTD_SALES_base := 100000;
              Tab4.MTD_SALES_compare := 150000;
              Tab4.Growth_Amount := 50000;
              Tab4.Growth_Percent := 50 |} ].
Proof.
  split; [| split; [| split]].
  - intros sales_data base_year compare_year r Hr.
    apply growth_data_In in Hr. destruct Hr as [salon [_ [_ ->]]]. simpl.
    repeat split; reflexivity.
  - intros sales_data base_year compare_year salon Hb Hc.
    eexists. split.
    + apply growth_data_In. exists salon. repeat split; eassumption.
    + reflexivity.
  - intros salon. split; reflexivity.
  - vm_compute. reflexivity.
Qed.

Lemma growth_amount_and_percent_witness :
  exists r,
    In r (Tab4.growth_data t_nagar_2023_2025 "2023" "2025") /\
    Tab4.Outlet r = "T NAGAR" /\
    Tab4.Growth_Amount r = 50000%float /\
    Tab4.Growth_Percent r = 50%float.
Proof.
  destruct growth_amount_and_percent as [Hrow [Hex _]].
  destruct (Hex t_nagar_2023_2025 "2023" "2025" "T NAGAR") as [r [Hr Ho]];
    [simpl; auto | simpl; auto |].
  exists r. split; [exact Hr |]. split; [exact Ho |].
  destruct (Hrow _ _ _ _ Hr) as [_ [_ [Ha Hp]]].
  rewrite Ha, Hp; rewrite Ho; [split; reflexivity | reflexivity].
Defined.

(** ** Growth from a zero base *)

(** A positive compare value over a zero base: the quotient is an infinity,
    and so is the percentage computed from it. *)
Lemma div_pos_by_zero (c b : float) :
  (b =? 0)%float = true -> (0 <? c)%float = true ->
  (c / b)%float = infinity \/ (c / b)%float = neg_infinity.
Proof.
  intros Hb Hc. destruct (eqb_zero_inv b Hb) as [sb Eb].
  rewrite ltb_spec, Prim2SF_zero in Hc.
  pose proof (div_spec c b) as D. rewrite Eb in D.
  rewrite <- (SF2Prim_Prim2SF (c / b)), D.
  destruct (Prim2SF c) as [sc | sc | | sc mc ec]; simpl in Hc |- *; try discriminate.
  - destruct sc, sb; auto.
  - destruct sc, sb; auto.
Qed.

(** The Year-to-Year table prints such a row's percentage as an infinity. *)
Lemma tab4_zero_base_text (salon : string) (base compare : float) :
  (base =? 0)%float = true -> (0 <? compare)%float = true ->
  let shown := Tab4.d_Growth_Percent (Tab4.display_row (Tab4.with_growth (salon, base, compare))) in
  shown = "inf%" \/ shown = "-inf%".
Proof.
  intros Hb Hc. simpl.
  destruct (div_pos_by_zero compare base Hb Hc) as [-> | ->]; [left | right];
    vm_compute; reflexivity.
Qed.

(** The center growth table prints "N/A" for a zero base, whatever the
    current value is. *)
Lemma center_zero_base_text (prev_sales current_sales : float) :
  (prev_sales =? 0)%float = true ->
  CenterGrowth.display_cell (CenterGrowth.growth_pct prev_sales current_sales) = "N/A".
Proof.
  intros H. unfold CenterGrowth.growth_pct. rewrite (eqb_zero_not_pos _ H).
  vm_compute. reflexivity.
Qed.

(** C1. Growth from a base-period sum of 0 to a compare-period sum of 100.
    The center growth table shows "N/A"; the Detailed Growth Table of the
    Year-to-Year Comparison, computed from the same figures, shows "inf%":
    the infinity reaches the formatted output.  Neither computation raises. *)
Theorem zero_base_growth_display :
  CenterGrowth.display_growth zero_base_service =
    Some [ ("T NAGAR", [ ("Growth 2023 to 2025", "N/A") ]) ] /\
  Tab4.year_selection zero_base_sales 0 0 = Some ("2023", Some "2025") /\
  Tab4.detailed_growth_table zero_base_sales 0 0 =
    Some [ {| Tab4.d_Outlet := "T NAGAR";
              Tab4.d_Sales_base := (rupee ++ "0")%string;
              Tab4.d_Sales_compare := (rupee ++ "100")%string;
              Tab4.d_Growth_Amount := (rupee ++ "100")%string;
              Tab4.d_Growth_Percent := "inf%" |} ].
Proof. repeat split; vm_compute; reflexivity. Qed.

(** ** The order on Python strings *)

Section StringOrder.

Lemma string_compare_refl (a : string) : String.compare a a = Eq.
Proof. apply (proj2 (String_as_OT.cmp_eq a a)). reflexivity. Qed.

Lemma string_leb_cases (a b : string) :
  String.leb a b = true <-> String.compare a b = Lt \/ a = b.
Proof.
  unfold String.leb. split.
  - destruct (String.compare a b) eqn:E; intros H;
      [right; apply String.compare_eq_iff, E | left; reflexivity | discriminate].
  - intros [-> | ->]; [reflexivity |].
    rewrite string_compare_refl. reflexivity.
Qed.

Lemma string_compare_lt_trans (a b c : string) :
  String.compare a b = Lt -> String.compare b c = Lt -> String.compare a c = Lt.
Proof.
  intros H1 H2. apply String_as_OT.cmp_lt.
  apply String_as_OT.lt_trans with b; apply String_as_OT.cmp_lt; assumption.
Qed.

Lemma string_leb_trans (a b c : string) :
  String.leb a b = true -> String.leb b c = true -> String.leb a c = true.
Proof.
  rewrite !string_leb_cases. intros [H1 | ->] [H2 | ->]; auto.
  left. eapply string_compare_lt_trans; eassumption.
Qed.

Lemma string_ltb_irrefl (a : string) : String.ltb a a = false.
Proof.
  unfold String.ltb. rewrite string_compare_refl. reflexivity.
Qed.

Lemma string_ltb_asym (a b : string) : String.ltb a b = true -> String.ltb b a = false.
Proof.
  unfold String.ltb. rewrite (String.compare_antisym a b).
  destruct (String.compare b a); simpl; congruence.
Qed.

Lemma string_leb_neq_ltb (a b : string) :
  String.leb a b = true -> a <> b -> String.ltb a b = true.
Proof.
  rewrite string_leb_cases. unfold String.ltb. intros [-> | ->] Hne;
    [reflexivity | contradiction].
Qed.

End StringOrder.

Lemma sorted_unique_StronglySorted (keys : list string) :
  StronglySorted (fun a b => String.leb a b = true) (Pandas.sorted_unique keys).
Proof.
  apply Sorted_StronglySorted.
  - intros a b c. apply string_leb_trans.
  - unfold Pandas.sorted_unique.
    apply (stable_sort_Sorted String.leb (fun _ => True)).
    + intros x y _ _. apply String.leb_total.
    + apply Forall_forall. intros; exact I.
Qed.

Lemma StronglySorted_snoc_inv {A : Type} (R : A -> A -> Prop) (l : list A) (x : A) :
  StronglySorted R (l ++ [x]) -> Forall (fun y => R y x) l.
Proof.
  induction l as [| y l IH]; simpl; intros H; [constructor |].
  inversion H as [| ? ? Hs Hall]; subst. constructor.
  - rewrite Forall_forall in Hall. apply Hall, in_or_app. right. left. reflexivity.
  - apply IH, Hs.
Qed.

(** In a list of years as the script builds it, every year but the last is
    below the last one. *)
Lemma years_below_last (keys : list string) (y : string) :
  In y (removelast (Pandas.sorted_unique keys)) ->
  String.ltb y (last (Pandas.sorted_unique keys) "") = true.
Proof.
  pose proof (sorted_unique_StronglySorted keys) as Hs.
  pose proof (sorted_unique_NoDup keys) as Hn.
  destruct (Pandas.sorted_unique keys) as [| k l] eqn:E; [intros [] |].
  rewrite <- E in *. assert (Hne : Pandas.sorted_unique keys <> []) by (rewrite E; discriminate).
  rewrite (app_removelast_last "" Hne) in Hs, Hn.
  set (init := removelast (Pandas.sorted_unique keys)) in *.
  set (z := last (Pandas.sorted_unique keys) "") in *.
  intros Hy. apply string_leb_neq_ltb.
  - apply StronglySorted_snoc_inv in Hs. rewrite Forall_forall in Hs. apply Hs, Hy.
  - intros ->. apply NoDup_remove_2 in Hn. apply Hn. rewrite app_nil_r. exact Hy.
Qed.

(** C9. In the Year-to-Year Comparison, whatever the user picks: the
    comparison box is never empty, every year it offers is a year of the data
    strictly greater than the chosen base year, and so is the year picked
    from it; base and comparison can neither coincide nor be reversed. *)
Theorem comparison_year_follows_base (sales_data : SalesTable)
    (picked_base picked_compare : nat) (base_year : string) (picked : option string) :
  Tab4.year_selection sales_data picked_base picked_compare = Some (base_year, picked) ->
  let options := Tab4.compare_year_options (Tab4.years sales_data) base_year in
  options <> [] /\
  (forall y, In y options ->
             In y (Tab4.years sales_data) /\ String.ltb base_year y = true) /\
  (forall compare_year, picked = Some compare_year ->
             String.ltb base_year compare_year = true /\
             compare_year <> base_year /\
             String.ltb compare_year base_year = false).
Proof.
  unfold Tab4.year_selection, Tab4.selectbox, Tab4.base_year_options.
  destruct (2 <=? _)%nat; [| discriminate].
  destruct (nth_error _ picked_base) as [b |] eqn:Eb; [| discriminate].
  intros H. inversion H; subst b picked. clear H.
  set (options := Tab4.compare_year_options (Tab4.years sales_data) base_year).
  assert (Hopt : forall y, In y options ->
             In y (Tab4.years sales_data) /\ String.ltb base_year y = true).
  { intros y Hy. apply filter_In in Hy. exact Hy. }
  split; [| split; [exact Hopt |]].
  - apply nth_error_In in Eb.
    assert (Hne : Tab4.years sales_data <> []).
    { intros E. rewrite E in Eb. exact Eb. }
    assert (Hin : In (last (Tab4.years sales_data) "") options).
    { apply filter_In. split; [| apply years_below_last, Eb].
      rewrite (app_removelast_last "" Hne) at 2.
      apply in_or_app. right. left. reflexivity. }
    intros E. rewrite E in Hin. exact Hin.
  - intros c Hc. apply nth_error_In in Hc. destruct (Hopt c Hc) as [_ Hlt].
    split; [exact Hlt |]. split.
    + intros ->. rewrite string_ltb_irrefl in Hlt. discriminate.
    + apply string_ltb_asym, Hlt.
Qed.

Lemma comparison_year_follows_base_witness :
  Tab4.year_selection three_years 0 1 = Some ("2023", Some "2025") /\
  Tab4.compare_year_options (Tab4.years three_years) "2023" = ["2024"; "2025"] /\
  String.ltb "2023" "2025" = true /\
  "2025" <> "2023".
Proof.
  assert (E : Tab4.year_selection three_years 0 1 = Some ("2023", Some "2025"))
    by (vm_compute; reflexivity).
  destruct (comparison_year_follows_base three_years 0 1 "2023" (Some "2025") E)
    as [_ [_ H]].
  destruct (H "2025" eq_refl) as [Hlt [Hne _]].
  split; [exact E |]. split; [vm_compute; reflexivity |]. split; assumption.
Defined.

(** ** Tab 3: the average transaction *)

Lemma div_by_zero_SF (x y : float) :
  (y =? 0)%float = true ->
  Prim2SF (x / y) = S754_nan \/ exists s, Prim2SF (x / y) = S754_infinity s.
Proof.
  intros H. destruct (eqb_zero_inv y H) as [s Hs].
  rewrite div_spec, Hs.
  destruct (Prim2SF x) as [sx | sx | | sx mx ex]; simpl; eauto.
Qed.

Lemma groupby_agg_In (key : ServiceRow -> string) (df : ServiceTable)
    (k : string) (sales count : float) :
  In (k, sales, count) (ServiceMetrics.groupby_agg key df) <->
  In k (List.map key df) /\
  sales = Pandas.Series_sum
            (List.map Total_Sales (List.filter (fun r => String.eqb (key r) k) df)) /\
  count = Pandas.Series_sum
            (List.map Transaction_Count (List.filter (fun r => String.eqb (key r) k) df)).
Proof.
  unfold ServiceMetrics.groupby_agg. rewrite in_map_iff. split.
  - intros [k' [E Hk]]. inversion E; subst.
    split; [apply sorted_unique_In, Hk | split; reflexivity].
  - intros [Hk [-> ->]]. exists k. split; [reflexivity |].
    apply sorted_unique_In, Hk.
Qed.

(** The rows of either aggregate are quotients of the two sums of a key. *)
Lemma aggregate_rows (key : ServiceRow -> string) (df : ServiceTable)
    (a : ServiceMetrics.Aggregate) :
  In a (List.map ServiceMetrics.with_average (ServiceMetrics.groupby_agg key df)) ->
  In (ServiceMetrics.Key a) (List.map key df) /\
  ServiceMetrics.Sales a =
    Pandas.Series_sum
      (List.map Total_Sales
         (List.filter (fun r => String.eqb (key r) (ServiceMetrics.Key a)) df)) /\
  ServiceMetrics.Count a =
    Pandas.Series_sum
      (List.map Transaction_Count
         (List.filter (fun r => String.eqb (key r) (ServiceMetrics.Key a)) df)) /\
  ServiceMetrics.Average_Transaction a =
    (ServiceMetrics.Sales a / ServiceMetrics.Count a)%float.
Proof.
  rewrite in_map_iff. intros [[[k sales] count] [<- H]].
  apply groupby_agg_In in H. destruct H as [Hk [-> ->]]. simpl. auto.
Qed.

(** C4. A service category and a center whose transaction counts sum to 0:
    nothing is raised, but the average is computed all the same, the
    Service Category Metrics table shows it as an infinity after the currency
    prefix, and the center table carries the infinity.  The other quotients
    of the script test their divisor: the average bill value of a table
    without bills is 0, and the center growth from a zero base is shown as
    "N/A". *)
Theorem zero_count_average_is_shown :
  ServiceMetrics.category_details zero_count_service =
    [ {| ServiceMetrics.Service_Category := "Hair";
         ServiceMetrics.Total_Sales_text := (rupee ++ "100")%string;
         ServiceMetrics.Transaction_Count_shown := 0;
         ServiceMetrics.Average_Transaction_text := (rupee ++ "inf")%string |};
      {| ServiceMetrics.Service_Category := "Skin";
         ServiceMetrics.Total_Sales_text := (rupee ++ "900")%string;
         ServiceMetrics.Transaction_Count_shown := 3;
         ServiceMetrics.Average_Transaction_text := (rupee ++ "300")%string |} ] /\
  ServiceMetrics.center_sales zero_count_service =
    [ {| ServiceMetrics.Key := "ADYAR"; ServiceMetrics.Sales := 900;
         ServiceMetrics.Count := 3; ServiceMetrics.Average_Transaction := 300 |};
      {| ServiceMetrics.Key := "T NAGAR"; ServiceMetrics.Sales := 100;
         ServiceMetrics.Count := 0; ServiceMetrics.Average_Transaction := infinity |} ] /\
  total_bills sales_no_bills = 0%float /\
  avg_bill_value sales_no_bills = 0%float /\
  avg_bill_value_metric sales_no_bills = (rupee ++ "0")%string /\
  CenterGrowth.display_cell (CenterGrowth.growth_pct 0 100) = "N/A".
Proof. vm_compute. repeat split; reflexivity. Qed.

(** X23. The missing guard on every table: for every service-category and
    every center aggregate row the average transaction is the quotient of the
    two sums of its key, computed for every row without a test on the count.
    A count of 0 raises nothing: the average is then an infinity or a missing
    value, and the Service Category Metrics table prints it as "inf", "-inf"
    or "nan" after the currency prefix instead of leaving it out. *)
Theorem average_transaction_unguarded (filtered_service_data : ServiceTable) :
  (forall a : ServiceMetrics.Aggregate,
      In a (ServiceMetrics.category_aggregate filtered_service_data) \/
      In a (ServiceMetrics.center_sales filtered_service_data) ->
      ServiceMetrics.Average_Transaction a =
        (ServiceMetrics.Sales a / ServiceMetrics.Count a)%float /\
      ((ServiceMetrics.Count a =? 0)%float = true ->
         PyFloat.isna (ServiceMetrics.Average_Transaction a) = true \/
         PyFloat.isinf (ServiceMetrics.Average_Transaction a) = true)) /\
  (forall d : ServiceMetrics.CategoryDetail,
      In d (ServiceMetrics.category_details filtered_service_data) ->
      (ServiceMetrics.Transaction_Count_shown d =? 0)%float = true ->
      ServiceMetrics.Average_Transaction_text d = (rupee ++ "nan")%string \/
      ServiceMetrics.Average_Transaction_text d = (rupee ++ "inf")%string \/
      ServiceMetrics.Average_Transaction_text d = (rupee ++ "-inf")%string).
Proof.
  assert (Hq : forall a,
             In a (ServiceMetrics.category_aggregate filtered_service_data) \/
             In a (ServiceMetrics.center_sales filtered_service_data) ->
             ServiceMetrics.Average_Transaction a =
               (ServiceMetrics.Sales a / ServiceMetrics.Count a)%float).
  { intros a [H | H].
    - apply aggregate_rows in H. apply H.
    - unfold ServiceMetrics.center_sales, Pandas.sort_values_float in H.
      apply sort_values_In in H. apply aggregate_rows in H. apply H. }
  split.
  - intros a H. split; [apply Hq, H |]. intros Hz. rewrite (Hq a H).
    apply div_by_zero, Hz.
  - intros d Hd Hz. unfold ServiceMetrics.category_details in Hd.
    apply in_map_iff in Hd. destruct Hd as [a [<- Ha]]. simpl in Hz |- *.
    unfold PyFloat.format_f. rewrite (Hq a (or_introl Ha)).
    destruct (div_by_zero_SF (ServiceMetrics.Sales a) _ Hz) as [-> | [s ->]].
    + left. reflexivity.
    + right. destruct s; [right | left]; reflexivity.
Qed.

Lemma average_transaction_unguarded_witness :
  let a := {| ServiceMetrics.Key := "Hair"; ServiceMetrics.Sales := 100;
              ServiceMetrics.Count := 0; ServiceMetrics.Average_Transaction := infinity |} in
  In a (ServiceMetrics.category_aggregate zero_count_service) /\
  ServiceMetrics.Average_Transaction a = (100 / 0)%float /\
  PyFloat.isinf (ServiceMetrics.Average_Transaction a) = true /\
  (ServiceMetrics.Average_Transaction_text (ServiceMetrics.format_detail a) =
     (rupee ++ "nan")%string \/
   ServiceMetrics.Average_Transaction_text (ServiceMetrics.format_detail a) =
     (rupee ++ "inf")%string \/
   ServiceMetrics.Average_Transaction_text (ServiceMetrics.format_detail a) =
     (rupee ++ "-inf")%string).
Proof.
  cbv zeta.
  set (a := {| ServiceMetrics.Key := "Hair"; ServiceMetrics.Sales := 100;
               ServiceMetrics.Count := 0; ServiceMetrics.Average_Transaction := infinity |}).
  assert (Hin : In a (ServiceMetrics.category_aggregate zero_count_service)).
  { vm_compute. left. reflexivity. }
  destruct (average_transaction_unguarded zero_count_service) as [Hrows Hshown].
  destruct (Hrows a (or_introl Hin)) as [E _].
  split; [exact Hin |]. split; [exact E |]. split; [reflexivity |].
  apply Hshown; [apply in_map, Hin | reflexivity].
Defined.

(** ** Sortedness of [sort_values] *)

Section SortedFacts.
Context {A : Type}.

Lemma Sorted_weaken (P : A -> Prop) (R R' : A -> A -> Prop) (l : list A) :
  (forall a b, P a -> P b -> R a b -> R' a b) ->
  Forall P l -> Sorted R l -> Sorted R' l.
Proof.
  intros Himp Hall Hs. induction Hs as [| x l Hs IH Hd]; [constructor |].
  inversion Hall as [| ? ? Px Pl]; subst. constructor; [apply IH, Pl |].
  destruct Hd as [| y l' Hxy]; constructor.
  inversion Pl; subst. apply Himp; assumption.
Qed.

Lemma Sorted_all_related (R : A -> A -> Prop) (Q : A -> Prop) (l : list A) :
  (forall a b, Q b -> R a b) -> Forall Q l -> Sorted R l.
Proof.
  intros HR. induction 1 as [| x l Qx Ql IH]; [constructor |].
  constructor; [exact IH |]. destruct Ql; constructor. apply HR. assumption.
Qed.

Lemma Sorted_app (R : A -> A -> Prop) (l1 l2 : list A) :
  Sorted R l1 -> Sorted R l2 ->
  (forall a b, In a l1 -> In b l2 -> R a b) ->
  Sorted R (l1 ++ l2).
Proof.
  intros H1 H2 H12. induction H1 as [| x l Hs IH Hd]; simpl; [exact H2 |].
  constructor.
  - apply IH. intros a b Ha Hb. apply H12; [right; exact Ha | exact Hb].
  - destruct Hd as [| y l' Hxy]; simpl.
    + destruct l2 as [| z l2]; constructor.
      apply H12; left; reflexivity.
    + constructor. exact Hxy.
Qed.

Lemma Sorted_firstn (R : A -> A -> Prop) (n : nat) (l : list A) :
  Sorted R l -> Sorted R (firstn n l).
Proof.
  intros Hs. revert n. induction Hs as [| x l Hs IH Hd]; intros [| n]; simpl;
    try constructor.
  - apply IH.
  - destruct Hd as [| y l' Hxy]; [destruct n; constructor |].
    destruct n; constructor. exact Hxy.
Qed.
End SortedFacts.

Section SortValuesFacts.
Context {A K : Type} (isna : K -> bool) (leb : K -> K -> bool) (by_ : A -> K).

Hypothesis leb_total :
  forall x y, isna x = false -> isna y = false -> leb x y = true \/ leb y x = true.

Lemma sort_values_Sorted (ascending : bool) (df : list A) :
  Sorted (Pandas.na_last isna leb by_ ascending) (Pandas.sort_values isna leb by_ ascending df).
Proof.
  unfold Pandas.sort_values.
  set (present := fun r : A => isna (by_ r) = false).
  set (le_rows := fun a b : A => leb (by_ a) (by_ b)).
  assert (Hpresent : Forall present (List.filter (fun r => negb (isna (by_ r))) df)).
  { apply Forall_forall. intros r Hr. apply filter_In in Hr.
    unfold present. destruct Hr as [_ Hr]. destruct (isna (by_ r)); [discriminate | reflexivity]. }
  assert (Htotal : forall x y, present x -> present y ->
                               le_rows x y = true \/ le_rows y x = true).
  { intros x y Hx Hy. apply leb_total; assumption. }
  apply Sorted_app.
  - destruct ascending.
    + apply Sorted_weaken with (P := present) (R := fun a b => le_rows a b = true).
      * intros a b Ha Hb Hab. right. auto.
      * apply Forall_forall. intros r Hr.
        apply (proj1 (stable_sort_In le_rows _ r)) in Hr.
        revert r Hr. apply Forall_forall. exact Hpresent.
      * apply (stable_sort_Sorted le_rows present Htotal). exact Hpresent.
    + apply Sorted_weaken with (P := present) (R := fun a b => le_rows b a = true).
      * intros a b Ha Hb Hab. right. auto.
      * apply Forall_forall. intros r Hr. apply in_rev in Hr.
        apply (proj1 (stable_sort_In le_rows _ r)) in Hr. apply in_rev in Hr.
        revert r Hr. apply Forall_forall. exact Hpresent.
      * apply (Sorted_rev (fun a b => le_rows a b = true)).
        apply (stable_sort_Sorted le_rows present Htotal).
        apply Forall_forall. intros r Hr. apply in_rev in Hr.
        revert r Hr. apply Forall_forall. exact Hpresent.
  - apply Sorted_all_related with (Q := fun r => isna (by_ r) = true).
    + intros a b Hb. left. exact Hb.
    + apply Forall_forall. intros r Hr. apply filter_In in Hr. apply Hr.
  - intros a b _ Hb. left. apply filter_In in Hb. apply Hb.
Qed.
End SortValuesFacts.

(** Sorting reads the key column only: a change of the rows that keeps
    their keys goes through the sort. *)
Section SortNatural.
Context {A B : Type} (g : A -> B).

Lemma insert_sorted_map (leA : A -> A -> bool) (leB : B -> B -> bool) (x : A) (l : list A) :
  (forall a b, leB (g a) (g b) = leA a b) ->
  Pandas.insert_sorted leB (g x) (List.map g l) = List.map g (Pandas.insert_sorted leA x l).
Proof.
  intros H. induction l as [| y l IH]; simpl; [reflexivity |].
  rewrite H. destruct (leA x y); simpl; [reflexivity |]. rewrite IH. reflexivity.
Qed.

Lemma stable_sort_map (leA : A -> A -> bool) (leB : B -> B -> bool) (l : list A) :
  (forall a b, leB (g a) (g b) = leA a b) ->
  Pandas.stable_sort leB (List.map g l) = List.map g (Pandas.stable_sort leA l).
Proof.
  intros H. induction l as [| x l IH]; simpl; [reflexivity |].
  rewrite IH. apply insert_sorted_map, H.
Qed.

Lemma filter_map_comm (p : B -> bool) (l : list A) :
  List.filter p (List.map g l) = List.map g (List.filter (fun a => p (g a)) l).
Proof.
  induction l as [| x l IH]; simpl; [reflexivity |].
  destruct (p (g x)); simpl; rewrite IH; reflexivity.
Qed.

Lemma sort_values_map {K : Type} (isna : K -> bool) (leb : K -> K -> bool)
    (byA : A -> K) (byB : B -> K) (ascending : bool) (df : list A) :
  (forall a, byB (g a) = byA a) ->
  Pandas.sort_values isna leb byB ascending (List.map g df) =
  List.map g (Pandas.sort_values isna leb byA ascending df).
Proof.
  intros H. unfold Pandas.sort_values.
  rewrite !filter_map_comm, map_app.
  assert (Hle : forall a b, leb (byB (g a)) (byB (g b)) = leb (byA a) (byA b))
    by (intros a b; rewrite !H; reflexivity).
  assert (E1 : List.filter (fun a => negb (isna (byB (g a)))) df =
               List.filter (fun r => negb (isna (byA r))) df)
    by (apply filter_ext; intros a; rewrite H; reflexivity).
  assert (E2 : List.filter (fun a => isna (byB (g a))) df =
               List.filter (fun r => isna (byA r)) df)
    by (apply filter_ext; intros a; rewrite H; reflexivity).
  rewrite E1, E2. f_equal.
  destruct ascending.
  - apply (stable_sort_map (fun a b => leb (byA a) (byA b))). exact Hle.
  - rewrite <- map_rev.
    rewrite (stable_sort_map (fun a b => leb (byA a) (byA b))) by exact Hle.
    apply eq_sym, map_rev.
Qed.
End SortNatural.

(** ** The order on floats that are numbers *)

Lemma isna_false_SF (x : float) : PyFloat.isna x = false -> Prim2SF x <> S754_nan.
Proof.
  unfold PyFloat.isna, is_nan. rewrite eqb_spec. intros H E. rewrite E in H.
  discriminate.
Qed.

Lemma SFleb_total (x y : spec_float) :
  x <> S754_nan -> y <> S754_nan -> SFleb x y = true \/ SFleb y x = true.
Proof.
  intros Hx Hy. unfold SFleb.
  destruct x as [sx | sx | | sx mx ex]; try congruence;
    destruct y as [sy | sy | | sy my ey]; try congruence; simpl;
    try (destruct sx; auto; fail); try (destruct sy; auto; fail);
    try (destruct sx, sy; auto; fail); auto.
  destruct sx, sy; auto;
    rewrite (Z.compare_antisym ex ey); destruct (ex ?= ey)%Z; simpl; auto;
    change (Pos.compare_cont Eq my mx) with (my ?= mx)%positive;
    change (Pos.compare_cont Eq mx my) with (mx ?= my)%positive;
    rewrite (Pos.compare_antisym mx my);
    destruct (mx ?= my)%positive; simpl; auto.
Qed.

Lemma float_leb_total (x y : float) :
  PyFloat.isna x = false -> PyFloat.isna y = false ->
  (x <=? y)%float = true \/ (y <=? x)%float = true.
Proof.
  intros Hx Hy. rewrite !leb_spec.
  apply SFleb_total; apply isna_false_SF; assumption.
Qed.

Lemma SFleb_trans (x y z : spec_float) :
  SFleb x y = true -> SFleb y z = true -> SFleb x z = true.
Proof.
  unfold SFleb, SFcompare.
  destruct x as [sx | sx | | sx mx ex], y as [sy | sy | | sy my ey],
           z as [sz | sz | | sz mz ez];
    try discriminate; try reflexivity;
    try (destruct sx; try discriminate; try reflexivity;
         destruct sy; try discriminate; try reflexivity;
         destruct sz; try discriminate; try reflexivity; fail);
    try (destruct sx, sy; try discriminate; try reflexivity; fail);
    try (destruct sy, sz; try discriminate; try reflexivity; fail);
    try (destruct sx, sz; try discriminate; try reflexivity; fail).
  all: destruct sx, sy, sz; try discriminate; try reflexivity.
  all: change (PosDef.Pos.compare_cont Eq mx my) with (mx ?= my)%positive;
       change (PosDef.Pos.compare_cont Eq my mz) with (my ?= mz)%positive;
       change (PosDef.Pos.compare_cont Eq mx mz) with (mx ?= mz)%positive.
  all: destruct (Z.compare_spec ex ey), (Z.compare_spec ey ez), (Z.compare_spec ex ez);
       try lia; try discriminate; try reflexivity.
  all: destruct (Pos.compare_spec mx my), (Pos.compare_spec my mz), (Pos.compare_spec mx mz);
       simpl; try lia; try discriminate; try reflexivity.
Qed.

Lemma float_leb_trans (x y z : float) :
  (x <=? y)%float = true -> (y <=? z)%float = true -> (x <=? z)%float = true.
Proof. rewrite !leb_spec. apply SFleb_trans. Qed.

(** The order of a sorted table carries over from neighbours to any two
    rows when the order on the keys is transitive. *)
Lemma na_last_trans {A K : Type} (isna : K -> bool) (leb : K -> K -> bool)
    (by_ : A -> K) (ascending : bool) :
  (forall x y z, leb x y = true -> leb y z = true -> leb x z = true) ->
  forall a b c,
    Pandas.na_last isna leb by_ ascending a b ->
    Pandas.na_last isna leb by_ ascending b c ->
    Pandas.na_last isna leb by_ ascending a c.
Proof.
  intros Ht a b c [Hb | [Ha [Hb Hab]]] [Hc | [Hb' [Hc Hbc]]].
  - left. exact Hc.
  - congruence.
  - left. exact Hc.
  - right. split; [exact Ha |]. split; [exact Hc |].
    destruct ascending; eapply Ht; eassumption.
Qed.

Lemma StronglySorted_firstn_skipn {A : Type} (R : A -> A -> Prop) (l : list A) :
  StronglySorted R l ->
  forall n a b, In a (firstn n l) -> In b (skipn n l) -> R a b.
Proof.
  induction 1 as [| x l Hs IH Hall]; intros n a b Ha Hb.
  - destruct n; destruct Ha.
  - destruct n as [| n]; [destruct Ha |]. simpl in Ha, Hb.
    destruct Ha as [<- | Ha]; [| exact (IH n a b Ha Hb)].
    rewrite Forall_forall in Hall. apply Hall.
    rewrite <- (firstn_skipn n l). apply in_or_app. right. exact Hb.
Qed.

(** ** Tab 3: the top 15 categories *)

(** C5, as the claim states it, fails: two categories with equal sales come
    out as "Styling" before "Colour", which is not ascending by name. *)
Lemma tied_categories_not_by_name :
  List.map Categories.Item_Category (Categories.top_categories tied_categories) =
    ["Facial"; "Styling"; "Colour"] /\
  List.map Categories.Total_Sales (Categories.top_categories tied_categories) =
    [700; 500; 500]%float /\
  String.ltb "Colour" "Styling" = true.
Proof. vm_compute. repeat split; reflexivity. Qed.

(** Whatever sorts by sales alone cannot put ties in name order on every
    table: a selection that keeps the rows of a two-row table and is blind to
    names returns "Styling" before "Colour" on one of two tables with equal
    sales. *)
Lemma name_order_needs_a_second_key (select : list Categories.Row -> list Categories.Row) :
  (forall f data, select (List.map (Categories.rename f) data) =
                  List.map (Categories.rename f) (select data)) ->
  (forall a b, Permutation (select [a; b]) [a; b]) ->
  exists data,
    List.map Categories.Total_Sales data = [500; 500]%float /\
    List.map Categories.Item_Category (select data) = ["Styling"; "Colour"].
Proof.
  intros Hblind Hkeep.
  set (row := fun name => {| Categories.Business_Unit := "Hair";
                             Categories.Item_Category := name;
                             Categories.Total_Sales := 500;
                             Categories.Total_Quantity := 1 |}).
  set (swap := fun name : string =>
                 if String.eqb name "Colour" then "Styling"
                 else if String.eqb name "Styling" then "Colour" else name).
  pose proof (Hkeep (row "Colour") (row "Styling")) as Hp.
  apply Permutation_sym, Permutation_length_2_inv in Hp. destruct Hp as [E | E].
  - exists (List.map (Categories.rename swap) [row "Colour"; row "Styling"]).
    split; [reflexivity |]. rewrite Hblind, E. reflexivity.
  - exists [row "Colour"; row "Styling"]. split; [reflexivity |]. rewrite E. reflexivity.
Qed.

(** C5, amended.  For every category table the top-15 selection is the first
    15 rows (all of them when there are fewer) of a rearrangement of the
    whole table that is descending by sales, rows without a sales figure
    last: the selected rows followed by the left-out rows are the table in
    that order, so no left-out row has a larger sales figure than a selected
    row.  The sort reads the sales column only: category names break no tie,
    and renaming the categories leaves the selected rows and their order as
    they are.  The selection is a function of the table, so repeated calls
    agree. *)
Theorem top_categories_descending (category_data : list Categories.Row) :
  let top := Categories.top_categories category_data in
  let before := Pandas.na_last PyFloat.isna PrimFloat.leb Categories.Total_Sales false in
  List.length top = Nat.min 15 (List.length category_data) /\
  (exists rest, Permutation (top ++ rest) category_data /\
                Sorted before (top ++ rest) /\
                (forall a b, In a top -> In b rest -> before a b)) /\
  Sorted before top /\
  (forall f : string -> string,
      Categories.top_categories (List.map (Categories.rename f) category_data) =
      List.map (Categories.rename f) top).
Proof.
  unfold Categories.top_categories, Pandas.sort_values_float. cbv zeta.
  set (sorted := Pandas.sort_values PyFloat.isna PrimFloat.leb Categories.Total_Sales false
                   category_data).
  set (before := Pandas.na_last PyFloat.isna PrimFloat.leb Categories.Total_Sales false).
  assert (Hperm : Permutation sorted category_data) by apply sort_values_perm.
  assert (Hsorted : Sorted before sorted)
    by (apply sort_values_Sorted; exact float_leb_total).
  assert (Hstrong : StronglySorted before sorted).
  { apply Sorted_StronglySorted; [| exact Hsorted].
    intros a b c. apply na_last_trans. exact float_leb_trans. }
  split; [| split; [| split]].
  - rewrite length_firstn, (Permutation_length Hperm). reflexivity.
  - exists (skipn 15 sorted). rewrite firstn_skipn.
    split; [exact Hperm |]. split; [exact Hsorted |].
    intros a b. apply StronglySorted_firstn_skipn. exact Hstrong.
  - apply Sorted_firstn. exact Hsorted.
  - intros f. rewrite <- firstn_map. f_equal.
    apply sort_values_map. intros a. reflexivity.
Qed.

(** ** Month order *)

Lemma code_leb_total (x y : option nat) :
  Months.code_isna x = false -> Months.code_isna y = false ->
  Months.code_leb x y = true \/ Months.code_leb y x = true.
Proof.
  destruct x as [i |], y as [j |]; simpl; try discriminate. intros _ _.
  destruct (Nat.leb_spec i j); [left; reflexivity | right].
  apply Nat.leb_le. lia.
Qed.

Lemma Sorted_calendar_ordered (codes : list (option nat)) :
  Sorted (Pandas.na_last Months.code_isna Months.code_leb (fun c => c) true) codes ->
  Months.calendar_ordered_codes codes = true.
Proof.
  induction 1 as [| a l Hs IH Hd]; [reflexivity |].
  destruct Hd as [| b l' Hab]; [reflexivity |].
  change (Months.calendar_ordered_codes (a :: b :: l')) with
    (match a, b with
     | Some i, Some j => (i <=? j)%nat
     | _, None => true
     | None, Some _ => false
     end && Months.calendar_ordered_codes (b :: l')).
  rewrite IH, andb_true_r.
  destruct Hab as [Hb | [Ha [Hb Hab]]].
  - destruct b; [discriminate |]. destruct a; reflexivity.
  - destruct a as [i |], b as [j |]; try discriminate. exact Hab.
Qed.

Lemma Sorted_map {A B : Type} (f : A -> B) (R : B -> B -> Prop) (l : list A) :
  Sorted (fun a b => R (f a) (f b)) l -> Sorted R (List.map f l).
Proof.
  induction 1 as [| x l Hs IH Hd]; simpl; constructor; [exact IH |].
  destruct Hd; simpl; constructor. assumption.
Qed.

(** Every table sorted by [Month_Sorted] lists its months in calendar order. *)
Lemma sort_by_month_calendar {A : Type} (month : A -> string) (df : list A) :
  Months.calendar_ordered (List.map month (Months.sort_by_month month df)) = true.
Proof.
  unfold Months.calendar_ordered. rewrite map_map.
  apply Sorted_calendar_ordered, Sorted_map.
  apply (sort_values_Sorted Months.code_isna Months.code_leb
           (fun r => Months.Month_Sorted (month r)) code_leb_total true df).
Qed.

Lemma monthly_trend_calendar (fd : SalesTable) :
  Months.calendar_ordered (Tab1.monthly_trend_x fd) = true.
Proof. apply sort_by_month_calendar. Qed.

Lemma monthly_growth_calendar (sales_data : SalesTable) (base_year compare_year : string) :
  Months.calendar_ordered (MonthByMonth.monthly_growth_x sales_data base_year compare_year) = true.
Proof. apply sort_by_month_calendar. Qed.

(** C7. On a table whose T NAGAR rows list February before January, the
    "T NAGAR Monthly Sales by Year" chart is handed the months as February,
    January, which is not calendar order; the Monthly Sales Trend of the same
    table, sorted through [month_order], gets January, February.  The
    "Select Month" box lists the months in the order of their spelling. *)
Theorem t_nagar_chart_months_unsorted :
  TNagar.yearly_comparison_x february_first = ["February"; "January"] /\
  Months.calendar_ordered (TNagar.yearly_comparison_x february_first) = false /\
  Tab1.monthly_trend_x (filtered_data february_first "2023" "All" "All") =
    ["January"; "February"] /\
  Tab1.months february_first = ["February"; "January"].
Proof. vm_compute. repeat split; reflexivity. Qed.

(** ** Reading a table from the blob store *)

Lemma read_csv_raises (text : string) (e : Py.exn) :
  Csv.read_csv text = Py.Raise e ->
  (exists t, e = Py.EmptyDataError t) \/ (exists t, e = Py.ParserError t).
Proof.
  unfold Csv.read_csv.
  destruct (Csv.tokenize _ _ _ text) as [| header lines].
  - intros [= <-]. eauto.
  - destruct (existsb _ lines); intros [= <-]. eauto.
Qed.

(** The outcome of [read_csv_from_s3], path by path. *)
Lemma read_csv_from_s3_cases (s : S3.Store) (bucket key : string) :
  S3.read_csv_from_s3 s bucket key =
  match S3.client_failure s with
  | Some e => Py.Raise (Py.Exception ("Failed to create S3 client: " ++ Py.str e))
  | None =>
      match S3.get_object s bucket key with
      | Py.Raise (Py.ClientError code text) =>
          if String.eqb code "NoSuchKey"
          then Py.Raise (Py.FileNotFoundError
                           ("File " ++ key ++ " not found in bucket " ++ bucket))
          else Py.Raise (Py.Exception ("Error reading file from S3: " ++ text))
      | Py.Raise e => Py.Raise e
      | Py.Ok S3.NotUtf8 =>
          Py.Raise (Py.UnicodeDecodeError
                      "'utf-8' codec can't decode byte: invalid start byte")
      | Py.Ok (S3.Utf8 text) => Csv.read_csv text
      end
  end.
Proof.
  unfold S3.read_csv_from_s3, S3.read_csv_from_s3_try, S3.get_s3_client.
  destruct (S3.client_failure s) as [e |]; simpl; [reflexivity |].
  destruct (S3.get_object s bucket key) as [[text |] | e]; simpl.
  - destruct (Csv.read_csv text) as [df | e] eqn:E; [reflexivity |].
    destruct (read_csv_raises _ _ E) as [[t ->] | [t ->]]; reflexivity.
  - reflexivity.
  - destruct e; reflexivity.
Qed.

Lemma get_object_raises (s : S3.Store) (bucket key : string) (e : Py.exn) :
  S3.get_object s bucket key = Py.Raise e ->
  (exists code text, e = Py.ClientError code text) \/ (exists text, e = Py.BotoCoreError text).
Proof.
  unfold S3.get_object.
  destruct (S3.fault s S3.GetObject bucket key) as [[code text | text] |].
  - intros [= <-]. eauto.
  - intros [= <-]. eauto.
  - destruct (S3.objects s !! (bucket, key)); [discriminate |]. intros [= <-]. eauto.
Qed.

(** Without a failure of the client or of the call, the service reports
    [NoSuchKey] exactly for the keys that are absent. *)
Lemma get_object_no_such_key (s : S3.Store) (bucket key : string) :
  S3.fault s S3.GetObject bucket key = None ->
  (exists text, S3.get_object s bucket key = Py.Raise (Py.ClientError "NoSuchKey" text)) <->
  S3.objects s !! (bucket, key) = None.
Proof.
  intros Hf. unfold S3.get_object. rewrite Hf.
  destruct (S3.objects s !! (bucket, key)); split; intros H; try discriminate; eauto.
  destruct H; discriminate.
Qed.

(** C8. For every bucket and key, [read_csv_from_s3]
    - fails with the NotFound error ([FileNotFoundError]) exactly when a
      client could be created and the service reports the key absent
      ([NoSuchKey]); with a client and an answering service that is exactly
      when the key is absent from the bucket;
    - fails with an error of the other kind on every other failure: any other
      error code of the service is raised as [Exception] with the text
      "Error reading file from S3: ...";
    - returns the parsed table exactly when the object is there, decodes and
      parses. *)
Theorem read_csv_from_s3_outcomes (s : S3.Store) (bucket key : string) :
  let r := S3.read_csv_from_s3 s bucket key in
  let reported_absent :=
    S3.client_failure s = None /\
    exists text, S3.get_object s bucket key = Py.Raise (Py.ClientError "NoSuchKey" text) in
  ((exists e, r = Py.Raise e /\ S3.kind_of e = S3.NotFound) <-> reported_absent) /\
  (S3.client_failure s = None -> S3.fault s S3.GetObject bucket key = None ->
     ((exists e, r = Py.Raise e /\ S3.kind_of e = S3.NotFound) <->
      S3.objects s !! (bucket, key) = None)) /\
  (forall e, r = Py.Raise e -> ~ reported_absent -> S3.kind_of e = S3.StorageError) /\
  (forall code text,
      S3.client_failure s = None ->
      S3.get_object s bucket key = Py.Raise (Py.ClientError code text) ->
      code <> "NoSuchKey" ->
      r = Py.Raise (Py.Exception ("Error reading file from S3: " ++ text))) /\
  (forall df, r = Py.Ok df <->
      S3.client_failure s = None /\
      exists text, S3.get_object s bucket key = Py.Ok (S3.Utf8 text) /\
                   Csv.read_csv text = Py.Ok df).
Proof.
  cbv zeta.
  assert (Hnf : (exists e, S3.read_csv_from_s3 s bucket key = Py.Raise e /\
                           S3.kind_of e = S3.NotFound) <->
                (S3.client_failure s = None /\
                 exists text, S3.get_object s bucket key =
                              Py.Raise (Py.ClientError "NoSuchKey" text))).
  { rewrite read_csv_from_s3_cases.
    destruct (S3.client_failure s) as [e0 |].
    - split; [intros [e [[= <-] Hk]]; discriminate | intros [? _]; discriminate].
    - destruct (S3.get_object s bucket key) as [[text |] | e0] eqn:G.
      + split; [| intros [_ [? ?]]; discriminate].
        intros [e [E Hk]].
        destruct (read_csv_raises _ _ E) as [[t ->] | [t ->]]; discriminate.
      + split; [| intros [_ [? ?]]; discriminate].
        intros [e [[= <-] Hk]]. discriminate.
      + destruct (get_object_raises _ _ _ _ G) as [[code [text ->]] | [text ->]].
        * destruct (String.eqb_spec code "NoSuchKey") as [-> | Hne].
          -- split; intros _; [eauto | eexists; split; reflexivity].
          -- split; [intros [e [[= <-] Hk]]; discriminate |].
             intros [_ [t [= -> _]]]. contradiction.
        * split; [intros [e [[= <-] Hk]]; discriminate | intros [_ [? ?]]; discriminate]. }
  split; [exact Hnf |]. split; [| split; [| split]].
  - intros Hc Hf. rewrite Hnf, <- (get_object_no_such_key s bucket key Hf).
    split; [intros [_ H]; exact H | intros H; split; [exact Hc | exact H]].
  - intros e He Habs. destruct (S3.kind_of e) eqn:K; [| reflexivity].
    exfalso. apply Habs, Hnf. eauto.
  - intros code text Hc G Hne. rewrite read_csv_from_s3_cases, Hc, G.
    destruct (String.eqb_spec code "NoSuchKey"); [contradiction | reflexivity].
  - intros df. rewrite read_csv_from_s3_cases.
    destruct (S3.client_failure s) as [e0 |].
    + split; [discriminate | intros [? _]; discriminate].
    + destruct (S3.get_object s bucket key) as [[text |] | e0] eqn:G.
      * split; [intros E; split; [reflexivity | eauto] |].
        intros [_ [t [[= ->] E]]]. exact E.
      * split; [discriminate | intros [_ [t [? _]]]; discriminate].
      * split; [| intros [_ [t [? _]]]; discriminate].
        destruct e0; try discriminate. destruct (String.eqb _ _); discriminate.
Qed.

Lemma read_csv_from_s3_outcomes_witness :
  (exists e, S3.read_csv_from_s3 store_with_table "dashboard" "missing.csv" = Py.Raise e /\
             S3.kind_of e = S3.NotFound) /\
  S3.read_csv_from_s3 store_with_table "dashboard" "data/processed_sales_data.csv" =
    Py.Ok {| Csv.columns := ["Year"; "Sales"];
             Csv.rows := [[Csv.VInt 2023; Csv.VInt 5]] |}.
Proof.
  destruct (read_csv_from_s3_outcomes store_with_table "dashboard" "missing.csv")
    as [_ [Habsent _]].
  destruct (read_csv_from_s3_outcomes store_with_table "dashboard"
              "data/processed_sales_data.csv") as [_ [_ [_ [_ Hok]]]].
  split.
  - apply Habsent; reflexivity.
  - apply Hok. split; [reflexivity |].
    exists year_sales_csv. split; vm_compute; reflexivity.
Defined.

(** ** The cached load *)

Section LoadFacts.

Variables S3_BUCKET S3_PREFIX : string.
Variable preprocess_sales_data : S3.Store -> Py.result Csv.DataFrame * S3.Store.
Variable load_processed_service_data : S3.Store -> Py.result Csv.DataFrame * S3.Store.

Let load_sales := Load.load_sales S3_BUCKET S3_PREFIX preprocess_sales_data.
Let load_data_body :=
  Load.load_data_body S3_BUCKET S3_PREFIX preprocess_sales_data load_processed_service_data.
Let load_data :=
  Load.load_data S3_BUCKET S3_PREFIX preprocess_sales_data load_processed_service_data.
Let calls :=
  Load.calls S3_BUCKET S3_PREFIX preprocess_sales_data load_processed_service_data.
Let exists_in_store (w : Load.World) :=
  S3.check_file_exists_in_s3 (Load.store w) S3_BUCKET (Load.processed_key S3_PREFIX).

(** The sales table comes from the store when the processed file is there,
    and from one run of [preprocess_sales_data] when it is not. *)
Lemma load_sales_spec (w w' : Load.World) (sales : Csv.DataFrame) :
  load_sales w = (Py.Ok sales, w') ->
  Load.cache_data w' = Load.cache_data w /\
  Load.body_runs w' = Load.body_runs w /\
  ((exists_in_store w = Py.Ok true /\
    S3.read_csv_from_s3 (Load.store w) S3_BUCKET (Load.processed_key S3_PREFIX) = Py.Ok sales /\
    Load.preprocess_runs w' = Load.preprocess_runs w /\
    Load.store w' = Load.store w) \/
   (exists_in_store w = Py.Ok false /\
    preprocess_sales_data (Load.store w) = (Py.Ok sales, Load.store w') /\
    Load.preprocess_runs w' = S (Load.preprocess_runs w))).
Proof.
  unfold load_sales, Load.load_sales, exists_in_store.
  destruct (S3.check_file_exists_in_s3 _ _ _) as [[|] | e].
  - intros [= E <-]. repeat split; try reflexivity. left. auto.
  - destruct (preprocess_sales_data (Load.store w)) as [r s] eqn:P.
    intros [= -> <-]. simpl. repeat split; try reflexivity. right. auto.
  - discriminate.
Qed.

Lemma load_data_body_spec (w w' : Load.World) (v : Csv.DataFrame * Csv.DataFrame) :
  load_data_body w = (Py.Ok v, w') ->
  Load.cache_data w' = Load.cache_data w /\
  Load.body_runs w' = S (Load.body_runs w) /\
  ((exists_in_store w = Py.Ok true /\
    S3.read_csv_from_s3 (Load.store w) S3_BUCKET (Load.processed_key S3_PREFIX) = Py.Ok (fst v) /\
    Load.preprocess_runs w' = Load.preprocess_runs w) \/
   (exists_in_store w = Py.Ok false /\
    fst (preprocess_sales_data (Load.store w)) = Py.Ok (fst v) /\
    Load.preprocess_runs w' = S (Load.preprocess_runs w))).
Proof.
  unfold load_data_body, Load.load_data_body.
  set (w0 := {| Load.store := Load.store w; Load.cache_data := Load.cache_data w;
                Load.body_runs := S (Load.body_runs w);
                Load.preprocess_runs := Load.preprocess_runs w |}).
  destruct (Load.load_sales S3_BUCKET S3_PREFIX preprocess_sales_data w0)
    as [[sales | e] w1] eqn:L; [| discriminate].
  apply load_sales_spec in L. destruct L as [Hc [Hb Hs]].
  destruct (load_processed_service_data (Load.store w1)) as [[service | e] s] eqn:S;
    [| discriminate].
  intros [= <- <-]. simpl. split; [exact Hc |]. split; [exact Hb |].
  destruct Hs as [[He [Hr [Hp _]]] | [He [Hr Hp]]].
  - left. auto.
  - right. split; [exact He |]. split; [| exact Hp].
    simpl in Hr. rewrite Hr. reflexivity.
Qed.

(** A hit: the entry is returned and nothing else happens. *)
Lemma load_data_hit (w : Load.World) (v : Csv.DataFrame * Csv.DataFrame) :
  Load.cache_data w = Some v -> load_data w = (Py.Ok v, w).
Proof. intros H. unfold load_data, Load.load_data. rewrite H. reflexivity. Qed.

Lemma calls_hit (n : nat) (w : Load.World) (v : Csv.DataFrame * Csv.DataFrame) :
  Load.cache_data w = Some v -> calls n w = (repeat (Py.Ok v) n, w).
Proof.
  intros H. induction n as [| n IH]; [reflexivity |].
  unfold calls in *. simpl.
  change (Load.load_data S3_BUCKET S3_PREFIX preprocess_sales_data load_processed_service_data w)
    with (load_data w).
  rewrite (load_data_hit w v H), IH. reflexivity.
Qed.

End LoadFacts.

(** C6. The cached load path, for the one key that [load_data] has.  On a
    miss the body runs, what it returns is kept in the cache and returned;
    the sales table is read from the store without a run of
    [preprocess_sales_data] when the processed file is there, and computed by
    one run of it otherwise.  On a hit the kept result is returned and the
    body does not run.  So over any number of calls one after the other in a
    process the body runs exactly once. *)
Theorem load_data_computes_once
    (S3_BUCKET S3_PREFIX : string)
    (preprocess_sales_data load_processed_service_data :
       S3.Store -> Py.result Csv.DataFrame * S3.Store)
    (w w1 : Load.World) (v : Csv.DataFrame * Csv.DataFrame) (n : nat) :
  let load_data :=
    Load.load_data S3_BUCKET S3_PREFIX preprocess_sales_data load_processed_service_data in
  let calls :=
    Load.calls S3_BUCKET S3_PREFIX preprocess_sales_data load_processed_service_data in
  let file_exists :=
    S3.check_file_exists_in_s3 (Load.store w) S3_BUCKET (Load.processed_key S3_PREFIX) in
  Load.cache_data w = None ->
  load_data w = (Py.Ok v, w1) ->
  Load.cache_data w1 = Some v /\
  Load.body_runs w1 = S (Load.body_runs w) /\
  ((file_exists = Py.Ok true /\
    S3.read_csv_from_s3 (Load.store w) S3_BUCKET (Load.processed_key S3_PREFIX) = Py.Ok (fst v) /\
    Load.preprocess_runs w1 = Load.preprocess_runs w) \/
   (file_exists = Py.Ok false /\
    fst (preprocess_sales_data (Load.store w)) = Py.Ok (fst v) /\
    Load.preprocess_runs w1 = S (Load.preprocess_runs w))) /\
  load_data w1 = (Py.Ok v, w1) /\
  calls (S n) w = (repeat (Py.Ok v) (S n), w1).
Proof.
  cbv zeta. intros Hmiss Hcall.
  unfold Load.load_data in Hcall. rewrite Hmiss in Hcall.
  destruct (Load.load_data_body _ _ _ _ w) as [[v' | e] w'] eqn:B; [| discriminate].
  injection Hcall as <- <-.
  destruct (load_data_body_spec _ _ _ _ _ _ _ B) as [_ [Hb Hs]].
  split; [reflexivity |]. split; [exact Hb |]. split; [exact Hs |].
  split; [apply load_data_hit; reflexivity |].
  simpl. unfold Load.load_data at 1. rewrite Hmiss, B.
  rewrite calls_hit with (v := v'); reflexivity.
Qed.

Lemma load_data_computes_once_witness :
  let run := Load.calls "dashboard" "data/" preprocess_and_save load_service_table
               3 fresh_process in
  fst run = repeat (Py.Ok (outlet_sales, service_table)) 3 /\
  Load.body_runs (snd run) = 1%nat /\
  Load.preprocess_runs (snd run) = 1%nat.
Proof.
  cbv zeta.
  set (load_data := Load.load_data "dashboard" "data/" preprocess_and_save load_service_table).
  assert (H : load_data fresh_process =
              (Py.Ok (outlet_sales, service_table), snd (load_data fresh_process)))
    by (vm_compute; reflexivity).
  destruct (load_data_computes_once "dashboard" "data/" preprocess_and_save
              load_service_table fresh_process (snd (load_data fresh_process))
              (outlet_sales, service_table) 2 eq_refl H) as [_ [Hb [_ [_ Hcalls]]]].
  rewrite Hcalls. simpl fst. simpl snd.
  split; [reflexivity |]. split; [exact Hb | vm_compute; reflexivity].
Defined.

(** ** The CSV text of a table, read back *)

Section StringFacts.






End StringFacts.

Section Tokenizer.











End Tokenizer.

Section Cells.


Lemma uint_nonempty (d : Decimal.uint) :
  d <> Decimal.Nil -> NilEmpty.string_of_uint d <> EmptyString.
Proof. destruct d; simpl; congruence. Qed.









End Cells.

Section Tables.











End Tables.






(** * Further properties of the code *)

(** ** The blob store: existence checks and writes *)

Lemma check_with_answer (s : S3.Store) (bucket key : string) :
  S3.client_failure s = None ->
  S3.fault s S3.HeadObject bucket key = None ->
  S3.check_file_exists_in_s3 s bucket key = Py.Ok (S3More.present s bucket key).
Proof.
  intros Hc Hf.
  unfold S3.check_file_exists_in_s3, S3.get_s3_client, S3.head_object, S3More.present.
  rewrite Hc, Hf. simpl.
  destruct (S3.objects s !! (bucket, key)); reflexivity.
Qed.

(** X1. With a client and an answering service, [check_file_exists_in_s3] tells
    whether the key is in the bucket. *)
Theorem check_file_exists_tells_presence (s : S3.Store) (bucket key : string) :
  S3.client_failure s = None ->
  S3.fault s S3.HeadObject bucket key = None ->
  S3.check_file_exists_in_s3 s bucket key = Py.Ok (S3More.present s bucket key).
Proof.
  intros Hc Hf.
  unfold S3.check_file_exists_in_s3, S3.get_s3_client, S3.head_object, S3More.present.
  rewrite Hc, Hf. simpl.
  destruct (S3.objects s !! (bucket, key)); reflexivity.
Qed.

Lemma check_file_exists_tells_presence_witness :
  S3.check_file_exists_in_s3 empty_store "dashboard" "data/processed_sales_data.csv" =
    Py.Ok false /\
  S3.check_file_exists_in_s3 store_with_table "dashboard" "data/processed_sales_data.csv" =
    Py.Ok true.
Proof.
  split.
  - apply (check_file_exists_tells_presence empty_store); reflexivity.
  - apply (check_file_exists_tells_presence store_with_table); reflexivity.
Defined.

(** X2. [check_file_exists_in_s3] answers [False] for the error code 404 and for
    nothing else: without a client, with another error code or without an
    answer it raises. *)
Theorem check_file_exists_false_only_for_404 (s : S3.Store) (bucket key : string) :
  S3.check_file_exists_in_s3 s bucket key = Py.Ok false <->
  S3.client_failure s = None /\
  exists text, S3.head_object s bucket key = Py.Raise (Py.ClientError "404" text).
Proof.
  unfold S3.check_file_exists_in_s3, S3.get_s3_client.
  destruct (S3.client_failure s) as [e0 |]; simpl.
  - split; [discriminate | intros [? _]; discriminate].
  - destruct (S3.head_object s bucket key) as [[] | e] eqn:H.
    + split; [discriminate | intros [_ [? ?]]; discriminate].
    + destruct e; try (split; [discriminate | intros [_ [? [=]]]]).
      destruct (String.eqb_spec code "404") as [-> | Hne].
      * split; [eauto | reflexivity].
      * split; [discriminate | intros [_ [? [= E _]]]; contradiction].
Qed.

(** X3. The three calls when no client can be created (no credentials, no
    region): the check raises instead of answering [False], the read raises
    an [Exception] that is no [FileNotFoundError], and the write raises and
    leaves the store as it is. *)
Theorem no_client_is_not_a_missing_file (s : S3.Store) (e : Py.exn)
    (df : Csv.DataFrame) (bucket key : string) :
  S3.client_failure s = Some e ->
  let text := ("Failed to create S3 client: " ++ Py.str e)%string in
  S3.check_file_exists_in_s3 s bucket key = Py.Raise (Py.Exception text) /\
  S3.read_csv_from_s3 s bucket key = Py.Raise (Py.Exception text) /\
  S3.save_df_to_s3 df s bucket key =
    (Py.Raise (Py.Exception ("Error saving file to S3: " ++ text)), s).
Proof.
  intros Hc. cbv zeta.
  unfold S3.check_file_exists_in_s3, S3.read_csv_from_s3, S3.read_csv_from_s3_try,
    S3.save_df_to_s3, S3.get_s3_client.
  rewrite Hc. simpl. repeat split; reflexivity.
Qed.

Lemma no_client_is_not_a_missing_file_witness :
  S3.check_file_exists_in_s3 store_no_client "dashboard" "data/processed_sales_data.csv" =
    Py.Raise (Py.Exception "Failed to create S3 client: You must specify a region.") /\
  S3.kind_of (Py.Exception "Failed to create S3 client: You must specify a region.") =
    S3.StorageError.
Proof.
  split; [| reflexivity].
  apply (no_client_is_not_a_missing_file store_no_client
           (Py.BotoCoreError "You must specify a region.") outlet_sales
           "dashboard" "data/processed_sales_data.csv" eq_refl).
Defined.

(** X4. Whatever makes [save_df_to_s3] fail, the failure to create a client
    or an error of the PUT request, the caller gets a plain [Exception] whose
    text is "Error saving file to S3: " followed by the text of the error
    that was caught; the class of that error is not kept. *)
Theorem save_failure_is_wrapped (df : Csv.DataFrame) (s s' : S3.Store)
    (bucket key : string) (e : Py.exn) :
  S3.save_df_to_s3 df s bucket key = (Py.Raise e, s') ->
  exists caught,
    e = Py.Exception ("Error saving file to S3: " ++ Py.str caught) /\
    (S3.get_s3_client s = Py.Raise caught \/
     fst (S3.put_object s bucket key (Csv.to_csv df)) = Py.Raise caught).
Proof.
  unfold S3.save_df_to_s3.
  destruct (S3.get_s3_client s) as [client | e0].
  - cbv zeta.
    destruct (S3.put_object s bucket key (Csv.to_csv df)) as [[u | e1] s1].
    + discriminate.
    + intros [= <- _]. exists e1. split; [reflexivity | right; reflexivity].
  - intros [= <- _]. exists e0. split; [reflexivity | left; reflexivity].
Qed.

Lemma save_failure_is_wrapped_witness :
  fst (S3.save_df_to_s3 outlet_sales store_read_only "dashboard" "processed_sales_data.csv") =
    Py.Raise (Py.Exception
      "Error saving file to S3: An error occurred (AccessDenied) when calling the PutObject operation: Access Denied") /\
  exists caught,
    Py.Exception
      "Error saving file to S3: An error occurred (AccessDenied) when calling the PutObject operation: Access Denied" =
    Py.Exception ("Error saving file to S3: " ++ Py.str caught) /\
    (S3.get_s3_client store_read_only = Py.Raise caught \/
     fst (S3.put_object store_read_only "dashboard" "processed_sales_data.csv"
            (Csv.to_csv outlet_sales)) = Py.Raise caught).
Proof.
  split; [reflexivity |].
  apply (save_failure_is_wrapped outlet_sales store_read_only store_read_only
           "dashboard" "processed_sales_data.csv").
  reflexivity.
Defined.

(** X5. A write that succeeds puts the CSV text of the table under the key,
    replacing what was there, and touches no other key; the check for the key
    then answers [True]. *)
Theorem save_success_stores_the_csv (df : Csv.DataFrame) (s s' : S3.Store)
    (bucket key : string) :
  S3.save_df_to_s3 df s bucket key = (Py.Ok tt, s') ->
  S3.objects s' !! (bucket, key) = Some (S3.Utf8 (Csv.to_csv df)) /\
  (forall bucket' key', (bucket', key') <> (bucket, key) ->
     S3.objects s' !! (bucket', key') = S3.objects s !! (bucket', key')) /\
  (S3.fault s S3.HeadObject bucket key = None ->
     S3.check_file_exists_in_s3 s' bucket key = Py.Ok true).
Proof.
  unfold S3.save_df_to_s3, S3.get_s3_client, S3.put_object.
  destruct (S3.client_failure s) as [e0 |] eqn:Hc; [discriminate |].
  destruct (S3.fault s S3.PutObject bucket key) as [f |]; [discriminate |].
  intros [= <-]. simpl. split; [apply lookup_insert_eq |]. split.
  - intros bucket' key' Hne. apply lookup_insert_ne. congruence.
  - intros Hf.
    rewrite check_with_answer; [| exact Hc | exact Hf].
    unfold S3More.present. simpl. rewrite lookup_insert_eq. reflexivity.
Qed.

Lemma save_success_stores_the_csv_witness :
  let s' := snd (S3.save_df_to_s3 outlet_sales empty_store "dashboard"
                   "processed_sales_data.csv") in
  S3.objects s' !! ("dashboard", "processed_sales_data.csv") =
    Some (S3.Utf8 (Csv.to_csv outlet_sales)) /\
  S3.check_file_exists_in_s3 s' "dashboard" "processed_sales_data.csv" = Py.Ok true.
Proof.
  cbv zeta.
  destruct (save_success_stores_the_csv outlet_sales empty_store
              (snd (S3.save_df_to_s3 outlet_sales empty_store "dashboard"
                      "processed_sales_data.csv"))
              "dashboard" "processed_sales_data.csv" eq_refl) as [H1 [_ H3]].
  split; [exact H1 | apply H3; reflexivity].
Defined.

(** X6. After a write that succeeds, reading the key gives the table parsed from
    the new text, whatever the key held before, and reading or checking any
    other key gives what it gave before the write. *)
Theorem save_then_read (df : Csv.DataFrame) (s s' : S3.Store) (bucket key : string) :
  S3.save_df_to_s3 df s bucket key = (Py.Ok tt, s') ->
  (S3.fault s S3.GetObject bucket key = None ->
     S3.read_csv_from_s3 s' bucket key = Csv.read_csv (Csv.to_csv df)) /\
  (forall bucket' key', (bucket', key') <> (bucket, key) ->
     S3.read_csv_from_s3 s' bucket' key' = S3.read_csv_from_s3 s bucket' key' /\
     S3.check_file_exists_in_s3 s' bucket' key' = S3.check_file_exists_in_s3 s bucket' key').
Proof.
  unfold S3.save_df_to_s3, S3.get_s3_client, S3.put_object.
  destruct (S3.client_failure s) as [e0 |] eqn:Hc; [discriminate |].
  destruct (S3.fault s S3.PutObject bucket key) as [f |]; [discriminate |].
  intros [= <-]. split.
  - intros Hg. rewrite read_csv_from_s3_cases. simpl. rewrite Hc.
    unfold S3.get_object. simpl. rewrite Hg, lookup_insert_eq. reflexivity.
  - intros bucket' key' Hne.
    assert (Hl : <[(bucket, key) := S3.Utf8 (Csv.to_csv df)]> (S3.objects s)
                   !! (bucket', key') = S3.objects s !! (bucket', key'))
      by (apply lookup_insert_ne; congruence).
    split.
    + rewrite !read_csv_from_s3_cases. simpl. rewrite Hc.
      unfold S3.get_object. simpl. rewrite Hl. reflexivity.
    + unfold S3.check_file_exists_in_s3, S3.get_s3_client, S3.head_object. simpl.
      rewrite Hc, Hl. reflexivity.
Qed.

Lemma save_then_read_witness :
  let s1 := snd (S3.save_df_to_s3 year_as_text store_with_table "dashboard"
                   "data/processed_sales_data.csv") in
  S3.read_csv_from_s3 s1 "dashboard" "data/processed_sales_data.csv" =
    Csv.read_csv (Csv.to_csv year_as_text) /\
  S3.read_csv_from_s3 s1 "dashboard" "other.csv" =
    S3.read_csv_from_s3 store_with_table "dashboard" "other.csv".
Proof.
  cbv zeta.
  destruct (save_then_read year_as_text store_with_table
              (snd (S3.save_df_to_s3 year_as_text store_with_table "dashboard"
                      "data/processed_sales_data.csv"))
              "dashboard" "data/processed_sales_data.csv" eq_refl) as [H1 H2].
  split; [apply H1; reflexivity |].
  apply (H2 "dashboard" "other.csv"). intros [=].
Defined.

(** X7. Neither the read nor the check lets a [ClientError] out: each one is
    turned into an answer, a [FileNotFoundError] or an [Exception]. *)
Theorem client_errors_are_converted (s : S3.Store) (bucket key : string) :
  match S3.read_csv_from_s3 s bucket key with
  | Py.Raise e => S3More.is_client_error e = false
  | Py.Ok _ => True
  end /\
  match S3.check_file_exists_in_s3 s bucket key with
  | Py.Raise e => S3More.is_client_error e = false
  | Py.Ok _ => True
  end.
Proof.
  split.
  - rewrite read_csv_from_s3_cases.
    destruct (S3.client_failure s); [reflexivity |].
    destruct (S3.get_object s bucket key) as [[text |] | e] eqn:G.
    + destruct (Csv.read_csv text) as [df | e] eqn:E; [exact I |].
      destruct (read_csv_raises _ _ E) as [[t ->] | [t ->]]; reflexivity.
    + reflexivity.
    + destruct e; try reflexivity. destruct (String.eqb code "NoSuchKey"); reflexivity.
  - unfold S3.check_file_exists_in_s3, S3.get_s3_client.
    destruct (S3.client_failure s); [reflexivity |]. simpl.
    destruct (S3.head_object s bucket key) as [[] | e]; [exact I |].
    destruct e; try reflexivity. destruct (String.eqb code "404"); [exact I | reflexivity].
Qed.

(** ** The cached load: failures and the processed file *)

Section LoadMore.

Variables S3_BUCKET S3_PREFIX : string.
Variable preprocess_sales_data : S3.Store -> Py.result Csv.DataFrame * S3.Store.
Variable load_processed_service_data : S3.Store -> Py.result Csv.DataFrame * S3.Store.

Let load_data :=
  Load.load_data S3_BUCKET S3_PREFIX preprocess_sales_data load_processed_service_data.
Let key := Load.processed_key S3_PREFIX.

(** A call that misses runs the body once, whatever comes of it. *)
Lemma miss_runs_body (w : Load.World) :
  Load.cache_data w = None ->
  Load.body_runs (snd (load_data w)) = S (Load.body_runs w).
Proof.
  intros Hm. unfold load_data, Load.load_data, Load.load_data_body, Load.load_sales.
  rewrite Hm. simpl.
  destruct (S3.check_file_exists_in_s3 _ _ _) as [[|] | e]; simpl.
  - destruct (S3.read_csv_from_s3 _ _ _) as [sales | e]; simpl; [| reflexivity].
    destruct (load_processed_service_data _) as [[service | e] s]; reflexivity.
  - destruct (preprocess_sales_data _) as [[sales | e] s]; simpl; [| reflexivity].
    destruct (load_processed_service_data _) as [[service | e] s']; reflexivity.
  - reflexivity.
Qed.

Lemma miss_raise_keeps_nothing (w w' : Load.World) (e : Py.exn) :
  Load.cache_data w = None -> load_data w = (Py.Raise e, w') ->
  Load.cache_data w' = None.
Proof.
  intros Hm. unfold load_data, Load.load_data, Load.load_data_body, Load.load_sales.
  rewrite Hm. simpl.
  destruct (S3.check_file_exists_in_s3 _ _ _) as [[|] | e0]; simpl.
  - destruct (S3.read_csv_from_s3 _ _ _) as [sales | e0]; simpl.
    + destruct (load_processed_service_data _) as [[service | e1] s];
        intros [= <- <-]; reflexivity.
    + intros [= <- <-]. reflexivity.
  - destruct (preprocess_sales_data _) as [[sales | e0] s]; simpl.
    + destruct (load_processed_service_data _) as [[service | e1] s'];
        intros [= <- <-]; reflexivity.
    + intros [= <- <-]. reflexivity.
  - intros [= <- <-]. reflexivity.
Qed.

End LoadMore.

(** X8. A load that fails is not kept: the exception reaches the caller, the
    cache stays empty, and the next call runs the body again. *)
Theorem failed_load_is_retried
    (S3_BUCKET S3_PREFIX : string)
    (preprocess_sales_data load_processed_service_data :
       S3.Store -> Py.result Csv.DataFrame * S3.Store)
    (w w' : Load.World) (e : Py.exn) :
  let load_data :=
    Load.load_data S3_BUCKET S3_PREFIX preprocess_sales_data load_processed_service_data in
  Load.cache_data w = None ->
  load_data w = (Py.Raise e, w') ->
  Load.cache_data w' = None /\
  Load.body_runs w' = S (Load.body_runs w) /\
  Load.body_runs (snd (load_data w')) = S (S (Load.body_runs w)).
Proof.
  cbv zeta. intros Hm Hr.
  pose proof (miss_raise_keeps_nothing _ _ _ _ _ _ _ Hm Hr) as Hm'.
  pose proof (miss_runs_body S3_BUCKET S3_PREFIX preprocess_sales_data
                load_processed_service_data w Hm) as Hb.
  rewrite Hr in Hb. simpl in Hb.
  split; [exact Hm' |]. split; [exact Hb |].
  rewrite (miss_runs_body S3_BUCKET S3_PREFIX preprocess_sales_data
             load_processed_service_data w' Hm'), Hb. reflexivity.
Qed.

(** X9. When the processed file is in the store, [preprocess_sales_data] does not
    run, also when the file cannot be read: the error of the read is the
    error of the load, and there is no fall back to computing the table. *)
Theorem existing_file_is_never_recomputed
    (S3_BUCKET S3_PREFIX : string)
    (preprocess_sales_data load_processed_service_data :
       S3.Store -> Py.result Csv.DataFrame * S3.Store)
    (w : Load.World) :
  let load_data :=
    Load.load_data S3_BUCKET S3_PREFIX preprocess_sales_data load_processed_service_data in
  let key := Load.processed_key S3_PREFIX in
  Load.cache_data w = None ->
  S3.check_file_exists_in_s3 (Load.store w) S3_BUCKET key = Py.Ok true ->
  Load.preprocess_runs (snd (load_data w)) = Load.preprocess_runs w /\
  (forall e, S3.read_csv_from_s3 (Load.store w) S3_BUCKET key = Py.Raise e ->
             fst (load_data w) = Py.Raise e).
Proof.
  cbv zeta. intros Hm Hx.
  unfold Load.load_data, Load.load_data_body, Load.load_sales. rewrite Hm. simpl.
  rewrite Hx. simpl.
  destruct (S3.read_csv_from_s3 _ _ _) as [sales | e0]; simpl.
  - destruct (load_processed_service_data _) as [[service | e1] s]; simpl;
      (split; [reflexivity | discriminate]).
  - split; [reflexivity |]. intros e [= <-]. reflexivity.
Qed.

Lemma failed_load_is_retried_witness :
  let load_data := Load.load_data "dashboard" "data/" preprocess_and_save load_service_table in
  let w' := snd (load_data (process_on store_denied)) in
  fst (load_data (process_on store_denied)) =
    Py.Raise (Py.Exception
      "Error checking file existence in S3: An error occurred (403) when calling the HeadObject operation: Forbidden") /\
  Load.cache_data w' = None /\
  Load.body_runs (snd (load_data w')) = 2%nat.
Proof.
  cbv zeta.
  set (load_data := Load.load_data "dashboard" "data/" preprocess_and_save load_service_table).
  destruct (failed_load_is_retried "dashboard" "data/" preprocess_and_save load_service_table
              (process_on store_denied) (snd (load_data (process_on store_denied)))
              (Py.Exception
                 "Error checking file existence in S3: An error occurred (403) when calling the HeadObject operation: Forbidden")
              eq_refl eq_refl) as [H1 [_ H3]].
  split; [reflexivity |]. split; [exact H1 | exact H3].
Defined.

Lemma existing_file_is_never_recomputed_witness :
  let load_data := Load.load_data "dashboard" "data/" preprocess_and_save load_service_table in
  Load.preprocess_runs (snd (load_data (process_on store_bad_file))) = 0%nat /\
  fst (load_data (process_on store_bad_file)) =
    Py.Raise (Py.UnicodeDecodeError "'utf-8' codec can't decode byte: invalid start byte").
Proof.
  cbv zeta.
  destruct (existing_file_is_never_recomputed "dashboard" "data/" preprocess_and_save
              load_service_table (process_on store_bad_file) eq_refl eq_refl) as [H1 H2].
  split; [exact H1 | apply H2; reflexivity].
Defined.



(** ** Tab 1: the selections and the outlet chart *)

Lemma filter_all {A : Type} (l : list A) : List.filter (fun _ => true) l = l.
Proof. induction l as [| x l IH]; simpl; [| rewrite IH]; reflexivity. Qed.

(** One selection: skipped for "All", a filter otherwise. *)
Lemma selection_as_filter {A : Type} (choice : string) (value : A -> string) (l : list A) :
  (if negb (String.eqb choice "All")
   then List.filter (fun r => String.eqb (value r) choice) l else l) =
  List.filter (fun r => Tab1More.selected choice (value r)) l.
Proof.
  unfold Tab1More.selected. destruct (String.eqb choice "All"); simpl.
  - symmetry. apply filter_all.
  - reflexivity.
Qed.

Lemma filtered_data_as_filter (sales_data : SalesTable)
    (selected_year selected_brand selected_month : string) :
  filtered_data sales_data selected_year selected_brand selected_month =
    List.filter (fun r => Tab1More.selected selected_year (Year r)
                          && Tab1More.selected selected_brand (BRAND r)
                          && Tab1More.selected selected_month (Month r)) sales_data.
Proof.
  unfold filtered_data. cbv zeta.
  rewrite (selection_as_filter selected_year Year).
  rewrite (selection_as_filter selected_brand BRAND).
  rewrite (selection_as_filter selected_month Month).
  rewrite !filter_filter_andb. apply filter_ext. intros r.
  rewrite andb_assoc. reflexivity.
Qed.

Lemma selected_iff (choice value : string) :
  Tab1More.selected choice value = true <-> choice = "All" \/ value = choice.
Proof.
  unfold Tab1More.selected. rewrite orb_true_iff, !String.eqb_eq. tauto.
Qed.

(** X11. A row is in [filtered_data] exactly when it is in the sales table and
    passes each of the three selections, "All" letting every row pass; the
    rows keep their order. *)
Theorem filtered_data_rows (sales_data : SalesTable)
    (selected_year selected_brand selected_month : string) :
  filtered_data sales_data selected_year selected_brand selected_month =
    List.filter (fun r => Tab1More.selected selected_year (Year r)
                          && Tab1More.selected selected_brand (BRAND r)
                          && Tab1More.selected selected_month (Month r)) sales_data /\
  (forall r, In r (filtered_data sales_data selected_year selected_brand selected_month) <->
             In r sales_data /\
             (selected_year = "All" \/ Year r = selected_year) /\
             (selected_brand = "All" \/ BRAND r = selected_brand) /\
             (selected_month = "All" \/ Month r = selected_month)).
Proof.
  split; [apply filtered_data_as_filter |]. intros r.
  rewrite filtered_data_as_filter, filter_In, !andb_true_iff, !selected_iff. tauto.
Qed.

Lemma groupby_sum_keys {A : Type} (key : A -> string) (col : A -> float) (df : list A) :
  List.map fst (Pandas.groupby_sum key col df) = Pandas.sorted_unique (List.map key df).
Proof.
  unfold Pandas.groupby_sum. rewrite map_map. simpl. apply map_id.
Qed.

Lemma sorted_unique_length (keys : list string) :
  List.length (Pandas.sorted_unique keys) = List.length (nodup string_dec keys).
Proof. apply Permutation_length, stable_sort_perm. Qed.

(** X12. The "MTD Sales by Outlet" chart has one bar per outlet of the filtered
    data, as many as the "Total Outlets" metric counts; each bar is the sum of
    the outlet's sales, and the bars go from the largest sum to the smallest. *)
Theorem salon_sales_one_bar_per_outlet (fd : SalesTable) :
  List.length (Tab1More.salon_sales fd) = Tab1More.total_outlets fd /\
  NoDup (List.map fst (Tab1More.salon_sales fd)) /\
  (forall outlet v,
      In (outlet, v) (Tab1More.salon_sales fd) <->
      In outlet (List.map SALON_NAMES fd) /\
      v = Pandas.Series_sum
            (List.map MTD_SALES
               (List.filter (fun r => String.eqb (SALON_NAMES r) outlet) fd))) /\
  Sorted (Pandas.na_last PyFloat.isna PrimFloat.leb snd false) (Tab1More.salon_sales fd).
Proof.
  unfold Tab1More.salon_sales, Tab1More.total_outlets, Pandas.sort_values_float.
  set (groups := Pandas.groupby_sum SALON_NAMES MTD_SALES fd).
  pose proof (sort_values_perm PyFloat.isna PrimFloat.leb snd false groups) as Hp.
  split; [| split; [| split]].
  - rewrite (Permutation_length Hp). unfold groups.
    rewrite <- (length_map fst), groupby_sum_keys. apply sorted_unique_length.
  - eapply Permutation_NoDup; [apply Permutation_sym, Permutation_map, Hp |].
    unfold groups. rewrite groupby_sum_keys. apply sorted_unique_NoDup.
  - intros outlet v. rewrite sort_values_In. apply groupby_sum_In.
  - apply sort_values_Sorted. exact float_leb_total.
Qed.

(** ** Tab 4: the rows of the growth table *)

Lemma filter_key_unique (right : list (string * float)) (k : string) :
  NoDup (List.map fst right) ->
  List.filter (fun r => String.eqb (fst r) k) right = [] \/
  exists v, List.filter (fun r => String.eqb (fst r) k) right = [(k, v)].
Proof.
  induction right as [| [k' v'] right IH]; simpl; intros Hn; [left; reflexivity |].
  inversion Hn as [| ? ? Hnot Hn']; subst.
  destruct (String.eqb_spec k' k) as [-> | Hne].
  - right. exists v'. f_equal.
    destruct (List.filter _ right) as [| [k2 v2] rest] eqn:E; [reflexivity |].
    exfalso. apply Hnot.
    assert (Hin : In (k2, v2) (List.filter (fun r => String.eqb (fst r) k) right))
      by (rewrite E; left; reflexivity).
    apply filter_In in Hin. destruct Hin as [Hin Hk]. simpl in Hk.
    apply String.eqb_eq in Hk. subst k2.
    apply in_map_iff. exists (k, v2). split; [reflexivity | exact Hin].
  - apply IH, Hn'.
Qed.

Lemma merge_keys_NoDup (left right : list (string * float)) :
  NoDup (List.map fst left) -> NoDup (List.map fst right) ->
  NoDup (List.map (fun row => fst (fst row)) (Pandas.merge left right)).
Proof.
  intros Hl Hr. induction left as [| [k v] left IH]; simpl; [constructor |].
  inversion Hl as [| ? ? Hnot Hl']; subst.
  change (flat_map _ left) with (Pandas.merge left right).
  destruct (filter_key_unique right k Hr) as [E | [w E]]; rewrite E; simpl.
  - apply IH, Hl'.
  - constructor; [| apply IH, Hl'].
    intros Hin. apply in_map_iff in Hin. destruct Hin as [[[k2 a] b] [Hk Hin]].
    simpl in Hk. subst k2. apply merge_In in Hin. destruct Hin as [Hin _].
    apply Hnot. apply in_map_iff. exists (k, a). split; [reflexivity | exact Hin].
Qed.

(** X13. The growth table has a row for an outlet exactly when the outlet has
    rows in the base year and in the comparison year, and never two rows for
    one outlet: an outlet that is missing from either year is left out. *)
Theorem growth_data_outlets (sales_data : SalesTable) (base_year compare_year : string) :
  NoDup (List.map Tab4.Outlet (Tab4.growth_data sales_data base_year compare_year)) /\
  (forall outlet,
      In outlet (List.map Tab4.Outlet (Tab4.growth_data sales_data base_year compare_year)) <->
      In outlet (List.map SALON_NAMES (Tab4.year_data sales_data base_year)) /\
      In outlet (List.map SALON_NAMES (Tab4.year_data sales_data compare_year))).
Proof.
  split.
  - unfold Tab4.growth_data, Pandas.sort_values_float.
    eapply Permutation_NoDup;
      [apply Permutation_sym, Permutation_map, sort_values_perm |].
    rewrite map_map.
    erewrite map_ext; [apply merge_keys_NoDup | intros [[k a] b]; reflexivity].
    + unfold Tab4.by_salon. rewrite groupby_sum_keys. apply sorted_unique_NoDup.
    + unfold Tab4.by_salon. rewrite groupby_sum_keys. apply sorted_unique_NoDup.
  - intros outlet. rewrite in_map_iff. split.
    + intros [r [<- Hr]]. apply growth_data_In in Hr.
      destruct Hr as [salon [Hb [Hc ->]]]. simpl. auto.
    + intros [Hb Hc]. eexists. split; [| apply growth_data_In; exists outlet; eauto].
      reflexivity.
Qed.

(** X14. The growth table is in descending order of the growth percentage, rows
    whose percentage is missing last, and the Detailed Growth Table shows the
    rows in that order. *)
Theorem growth_data_sorted (sales_data : SalesTable) (base_year compare_year : string) :
  Sorted (Pandas.na_last PyFloat.isna PrimFloat.leb Tab4.Growth_Percent false)
         (Tab4.growth_data sales_data base_year compare_year) /\
  List.map Tab4.d_Outlet (Tab4.display_growth sales_data base_year compare_year) =
    List.map Tab4.Outlet (Tab4.growth_data sales_data base_year compare_year).
Proof.
  split.
  - apply sort_values_Sorted. exact float_leb_total.
  - unfold Tab4.display_growth. rewrite map_map. reflexivity.
Qed.

(** X15. A row of the growth table with a zero base and a positive comparison
    value is shown with an infinite percentage, "inf%" or "-inf%". *)
Theorem zero_base_rows_show_inf (sales_data : SalesTable) (base_year compare_year : string)
    (r : Tab4.GrowthRow) :
  In r (Tab4.growth_data sales_data base_year compare_year) ->
  (Tab4.MTD_SALES_base r =? 0)%float = true ->
  (0 <? Tab4.MTD_SALES_compare r)%float = true ->
  In (Tab4.display_row r) (Tab4.display_growth sales_data base_year compare_year) /\
  (Tab4.d_Growth_Percent (Tab4.display_row r) = "inf%" \/
   Tab4.d_Growth_Percent (Tab4.display_row r) = "-inf%").
Proof.
  intros Hr Hb Hc. split; [apply in_map, Hr |].
  apply growth_data_In in Hr. destruct Hr as [salon [_ [_ ->]]].
  simpl in Hb, Hc. apply (tab4_zero_base_text salon _ _ Hb Hc).
Qed.

Lemma zero_base_rows_show_inf_witness :
  exists r,
    In r (Tab4.growth_data zero_base_sales "2023" "2025") /\
    Tab4.d_Growth_Percent (Tab4.display_row r) = "inf%".
Proof.
  set (r := Tab4.with_growth ("T NAGAR", 0%float, 100%float)).
  assert (Hr : In r (Tab4.growth_data zero_base_sales "2023" "2025"))
    by (vm_compute; left; reflexivity).
  destruct (zero_base_rows_show_inf zero_base_sales "2023" "2025" r Hr eq_refl eq_refl)
    as [_ [H | H]].
  - exists r. split; assumption.
  - exists r. split; [exact Hr | reflexivity].
Defined.

(** ** Tab 4: what the two year boxes offer *)

Lemma sorted_unique_strict (keys : list string) :
  StronglySorted (fun a b => String.ltb a b = true) (Pandas.sorted_unique keys).
Proof.
  pose proof (sorted_unique_StronglySorted keys) as Hs.
  pose proof (sorted_unique_NoDup keys) as Hn.
  induction Hs as [| x l Hs IH Hall]; [constructor |].
  inversion Hn as [| ? ? Hnot Hn']; subst. constructor; [apply IH, Hn' |].
  apply Forall_forall. intros y Hy. apply string_leb_neq_ltb.
  - rewrite Forall_forall in Hall. apply Hall, Hy.
  - intros ->. contradiction.
Qed.

Lemma filter_later (l : list string) :
  StronglySorted (fun a b => String.ltb a b = true) l ->
  forall i b, nth_error l i = Some b ->
              List.filter (fun y => String.ltb b y) l = skipn (S i) l.
Proof.
  induction 1 as [| x l Hs IH Hall]; intros i b Hi; [destruct i; discriminate |].
  destruct i as [| i]; simpl in Hi.
  - injection Hi as ->. simpl. rewrite string_ltb_irrefl.
    apply forallb_filter_id. apply forallb_forall. rewrite Forall_forall in Hall.
    exact Hall.
  - simpl. rewrite Forall_forall in Hall.
    rewrite (string_ltb_asym x b (Hall b (nth_error_In _ _ Hi))).
    apply IH, Hi.
Qed.

Lemma nth_error_removelast {A : Type} (l : list A) (i : nat) (x : A) :
  nth_error (removelast l) i = Some x -> nth_error l i = Some x.
Proof.
  revert i. induction l as [| a l IH]; intros i; [destruct i; discriminate |].
  destruct l as [| b l]; [destruct i; discriminate |].
  change (removelast (a :: b :: l)) with (a :: removelast (b :: l)).
  destruct i as [| i]; simpl; [auto | apply IH].
Qed.

(** X16. The boxes of the Year-to-Year Comparison: the base year is any year but
    the last, and the comparison box then offers exactly the later years, in
    order.  Picking entry [i] and then entry [j] compares the year at place
    [i] with the year at place [i + 1 + j]; the boxes as they first appear
    (both at entry 0) compare the two earliest years. *)
Theorem year_selection_places (sales_data : SalesTable) (i j : nat)
    (base_year : string) (picked : option string) :
  Tab4.year_selection sales_data i j = Some (base_year, picked) ->
  nth_error (Tab4.years sales_data) i = Some base_year /\
  Tab4.compare_year_options (Tab4.years sales_data) base_year =
    skipn (S i) (Tab4.years sales_data) /\
  picked = nth_error (Tab4.years sales_data) (S i + j).
Proof.
  unfold Tab4.year_selection, Tab4.selectbox, Tab4.base_year_options.
  destruct (2 <=? _)%nat; [| discriminate].
  destruct (nth_error _ i) as [b |] eqn:Eb; [| discriminate].
  intros [= -> <-]. apply nth_error_removelast in Eb.
  assert (E : Tab4.compare_year_options (Tab4.years sales_data) base_year =
              skipn (S i) (Tab4.years sales_data)).
  { apply filter_later; [apply sorted_unique_strict | exact Eb]. }
  split; [exact Eb |]. split; [exact E |].
  rewrite E. apply nth_error_skipn.
Qed.

Lemma year_selection_places_witness :
  Tab4.years three_years = ["2023"; "2024"; "2025"] /\
  Tab4.year_selection three_years 0 0 = Some ("2023", Some "2024") /\
  Tab4.compare_year_options (Tab4.years three_years) "2024" = ["2025"].
Proof.
  split; [vm_compute; reflexivity |]. split; [vm_compute; reflexivity |].
  destruct (year_selection_places three_years 1 0 "2024" (Some "2025")
              ltac:(vm_compute; reflexivity)) as [_ [E _]].
  rewrite E. vm_compute. reflexivity.
Defined.

(** ** Tab 4: the overall growth *)

(** X17. The "Overall Growth" metric divides the two yearly totals without a
    test on the base total: when the base year's sales sum to zero and the
    comparison year's to a positive amount, the metric reads "inf%" (or
    "-inf%" for a negative zero). *)
Theorem overall_growth_unguarded (sales_data : SalesTable) (base_year compare_year : string) :
  (total_sales (Tab4.year_data sales_data base_year) =? 0)%float = true ->
  (0 <? total_sales (Tab4.year_data sales_data compare_year))%float = true ->
  Tab4More.overall_growth_metric sales_data base_year compare_year = "inf%" \/
  Tab4More.overall_growth_metric sales_data base_year compare_year = "-inf%".
Proof.
  intros Hb Hc. unfold Tab4More.overall_growth_metric, Tab4More.overall_growth. cbv zeta.
  destruct (div_pos_by_zero _ _ Hb Hc) as [-> | ->]; [left | right];
    vm_compute; reflexivity.
Qed.

Lemma overall_growth_unguarded_witness :
  Tab4More.overall_growth_metric zero_base_sales "2023" "2025" = "inf%" \/
  Tab4More.overall_growth_metric zero_base_sales "2023" "2025" = "-inf%".
Proof.
  apply (overall_growth_unguarded zero_base_sales "2023" "2025");
    vm_compute; reflexivity.
Defined.

(** ** Tab 3: the center growth table *)

Lemma consecutive_length (l : list string) :
  List.length (CenterGrowth.consecutive l) = (List.length l - 1)%nat.
Proof.
  induction l as [| a l IH]; [reflexivity |].
  destruct l as [| b l]; [reflexivity |].
  change (CenterGrowth.consecutive (a :: b :: l))
    with ((a, b) :: CenterGrowth.consecutive (b :: l)).
  simpl List.length in *. rewrite IH. lia.
Qed.

Lemma consecutive_adjacent (l : list string) :
  StronglySorted (fun a b => String.ltb a b = true) l ->
  forall p c, In (p, c) (CenterGrowth.consecutive l) ->
    In p l /\ In c l /\ String.ltb p c = true /\
    forall y, In y l -> String.ltb p y = true -> String.ltb y c = true -> False.
Proof.
  induction 1 as [| x l Hs IH Hall]; intros p c Hin; [destruct Hin |].
  destruct l as [| c0 rest]; [destruct Hin |].
  change (CenterGrowth.consecutive (x :: c0 :: rest))
    with ((x, c0) :: CenterGrowth.consecutive (c0 :: rest)) in Hin.
  rewrite Forall_forall in Hall.
  destruct Hin as [[= <- <-] | Hin].
  - split; [left; reflexivity |]. split; [right; left; reflexivity |].
    split; [apply Hall; left; reflexivity |].
    intros y [<- | [<- | Hy]] Hxy Hyc.
    + rewrite string_ltb_irrefl in Hxy. discriminate.
    + rewrite string_ltb_irrefl in Hyc. discriminate.
    + inversion Hs as [| ? ? _ Hrest]; subst. rewrite Forall_forall in Hrest.
      rewrite (string_ltb_asym _ _ (Hrest y Hy)) in Hyc. discriminate.
  - destruct (IH p c Hin) as [Hp [Hc [Hpc Hbetween]]].
    split; [right; exact Hp |]. split; [right; exact Hc |]. split; [exact Hpc |].
    intros y [<- | Hy] Hpy Hyc; [| exact (Hbetween y Hy Hpy Hyc)].
    rewrite (string_ltb_asym _ _ (Hall p Hp)) in Hpy. discriminate.
Qed.

(** X18. The growth columns of the center table compare neighbouring years only:
    there is one column fewer than there are years, every column runs from a
    year to a later one, and no year of the data lies between the two. *)
Theorem center_growth_columns_adjacent (service_data : ServiceTable) :
  let years := CenterGrowth.years service_data in
  List.length (CenterGrowth.consecutive years) = (List.length years - 1)%nat /\
  forall prev_year current_year,
    In (prev_year, current_year) (CenterGrowth.consecutive years) ->
    In prev_year years /\ In current_year years /\
    String.ltb prev_year current_year = true /\
    forall y, In y years ->
              String.ltb prev_year y = true /\ String.ltb y current_year = true -> False.
Proof.
  intros years. split; [apply consecutive_length |].
  intros p c Hin.
  destruct (consecutive_adjacent years (sorted_unique_strict _) p c Hin)
    as [Hp [Hc [Hpc Hb]]].
  repeat split; try assumption. intros y Hy [H1 H2]. exact (Hb y Hy H1 H2).
Qed.

Lemma pivot_cell_missing (service_data : ServiceTable) (center year : string) :
  (forall r, In r service_data -> Center_Name r = center -> Service_Year r <> year) ->
  CenterGrowth.pivot_cell service_data center year = nan.
Proof.
  intros H. unfold CenterGrowth.pivot_cell.
  destruct (List.filter _ service_data) as [| r rows] eqn:E; [reflexivity |].
  exfalso.
  assert (Hin : In r (List.filter
                        (fun r => String.eqb (Center_Name r) center
                                  && String.eqb (Service_Year r) year) service_data))
    by (rewrite E; left; reflexivity).
  apply filter_In in Hin. destruct Hin as [Hin Ht].
  apply andb_true_iff in Ht. destruct Ht as [Hc Hy].
  apply String.eqb_eq in Hc. apply String.eqb_eq in Hy.
  exact (H r Hin Hc Hy).
Qed.

Lemma missing_prev_text (current_sales : float) :
  CenterGrowth.display_cell (CenterGrowth.growth_pct nan current_sales) = "N/A".
Proof.
  unfold CenterGrowth.growth_pct.
  replace (0 <? nan)%float with false by reflexivity.
  vm_compute. reflexivity.
Qed.

Lemma missing_current_text (prev_sales : float) :
  CenterGrowth.display_cell (CenterGrowth.growth_pct prev_sales nan) = "N/A".
Proof.
  unfold CenterGrowth.growth_pct.
  destruct (0 <? prev_sales)%float; [| vm_compute; reflexivity].
  assert (E : Prim2SF (((nan / prev_sales) - 1) * 100) = S754_nan).
  { rewrite mul_spec, sub_spec, div_spec.
    change (Prim2SF nan) with S754_nan.
    destruct (Prim2SF prev_sales); vm_compute; reflexivity. }
  unfold CenterGrowth.display_cell, PyFloat.isna, is_nan.
  rewrite eqb_spec, E. reflexivity.
Qed.

(** X19. A center without rows in one of two neighbouring years gets "N/A" in the
    growth column of that pair, whichever of the two years is the empty one. *)
Theorem center_growth_missing_year (service_data : ServiceTable)
    (table : list (string * list (string * string)))
    (center : string) (cells : list (string * string)) (prev_year current_year : string) :
  CenterGrowth.display_growth service_data = Some table ->
  In (center, cells) table ->
  In (prev_year, current_year) (CenterGrowth.consecutive (CenterGrowth.years service_data)) ->
  (forall r, In r service_data -> Center_Name r = center -> Service_Year r <> prev_year) \/
  (forall r, In r service_data -> Center_Name r = center -> Service_Year r <> current_year) ->
  In (("Growth " ++ prev_year ++ " to " ++ current_year)%string, "N/A") cells.
Proof.
  unfold CenterGrowth.display_growth.
  destruct (1 <? _)%nat; [| discriminate].
  intros [= <-] Hrow Hpair Hmissing.
  apply in_map_iff in Hrow. destruct Hrow as [row [[= Hc Hcells] Hrow]].
  unfold CenterGrowth.growth_df, Pandas.sort_values_float in Hrow.
  apply (proj1 (sort_values_In _ _ _ _ _ _)) in Hrow.
  apply in_map_iff in Hrow. destruct Hrow as [center' [<- _]].
  simpl in Hc. subst center'. subst cells. simpl.
  rewrite map_map. apply in_map_iff. exists (prev_year, current_year).
  split; [| exact Hpair]. simpl. f_equal.
  destruct Hmissing as [H | H]; rewrite (pivot_cell_missing _ _ _ H).
  - apply missing_prev_text.
  - apply missing_current_text.
Qed.

Lemma center_growth_missing_year_witness :
  CenterGrowth.display_growth centers_missing_years =
    Some [ ("ADYAR", [("Growth 2023 to 2024", "N/A")]);
           ("T NAGAR", [("Growth 2023 to 2024", "50.00%")]);
           ("ANNA NAGAR", [("Growth 2023 to 2024", "N/A")]) ] /\
  In ("Growth 2023 to 2024", "N/A") [("Growth 2023 to 2024", "N/A")].
Proof.
  split; [vm_compute; reflexivity |].
  apply (center_growth_missing_year centers_missing_years
           [ ("ADYAR", [("Growth 2023 to 2024", "N/A")]);
             ("T NAGAR", [("Growth 2023 to 2024", "50.00%")]);
             ("ANNA NAGAR", [("Growth 2023 to 2024", "N/A")]) ]
           "ANNA NAGAR" [("Growth 2023 to 2024", "N/A")] "2023" "2024").
  - vm_compute. reflexivity.
  - simpl. auto.
  - vm_compute. auto.
  - right. intros r Hr. simpl in Hr.
    destruct Hr as [<- | [<- | [<- | [<- | []]]]]; simpl; intros Hc; discriminate.
Defined.

(** ** The monthly charts *)

Lemma NoDup_map_fst_same_snd {A B : Type} (l : list (A * B)) (b : B) :
  NoDup l -> (forall p, In p l -> snd p = b) -> NoDup (List.map fst l).
Proof.
  induction 1 as [| [a b'] l Hnot Hn IH]; intros Hsnd; simpl; constructor.
  - intros Hin. apply in_map_iff in Hin. destruct Hin as [[a2 b2] [E Hin]].
    simpl in E. subst a2. apply Hnot.
    assert (E1 : b' = b) by (apply (Hsnd (a, b')); left; reflexivity).
    assert (E2 : b2 = b) by (apply (Hsnd (a, b2)); right; exact Hin).
    rewrite E1, <- E2. exact Hin.
  - apply IH. intros p Hp. apply Hsnd. right. exact Hp.
Qed.

Lemma monthly_sales_months (fd : SalesTable) :
  Permutation (Tab1.monthly_trend_x fd)
              (List.map fst (nodup Tab1.pair_eq_dec
                               (List.map (fun r => (Month r, Year r)) fd))).
Proof.
  unfold Tab1.monthly_trend_x, Tab1.monthly_sales, Months.sort_by_month.
  eapply Permutation_trans; [apply Permutation_map, sort_values_perm |].
  unfold Tab1.groupby_month_year. rewrite map_map. simpl.
  apply Permutation_map, stable_sort_perm.
Qed.

(** X20. The Monthly Sales Trend, shown for a selected year and all months: one
    point for each month in which the selection has a row, no month twice,
    January to December. *)
Theorem monthly_trend_one_point_per_month (sales_data : SalesTable)
    (selected_year selected_brand : string) :
  selected_year <> "All" ->
  let fd := filtered_data sales_data selected_year selected_brand "All" in
  NoDup (Tab1.monthly_trend_x fd) /\
  Months.calendar_ordered (Tab1.monthly_trend_x fd) = true /\
  (forall m, In m (Tab1.monthly_trend_x fd) <->
             exists r, In r sales_data /\ Year r = selected_year /\
                       (selected_brand = "All" \/ BRAND r = selected_brand) /\
                       Month r = m).
Proof.
  intros Hyear fd.
  assert (Hfd : forall r, In r fd <->
                  In r sales_data /\ Year r = selected_year /\
                  (selected_brand = "All" \/ BRAND r = selected_brand)).
  { intros r. unfold fd.
    rewrite filtered_data_as_filter, filter_In, !andb_true_iff, !selected_iff. tauto. }
  split; [| split].
  - eapply Permutation_NoDup; [apply Permutation_sym, monthly_sales_months |].
    apply (NoDup_map_fst_same_snd _ selected_year); [apply NoDup_nodup |].
    intros p Hp. apply nodup_In in Hp. apply in_map_iff in Hp.
    destruct Hp as [r [<- Hr]]. simpl. apply Hfd in Hr. tauto.
  - apply sort_by_month_calendar.
  - intros m. split.
    + intros Hm. apply (Permutation_in _ (monthly_sales_months fd)) in Hm.
      apply in_map_iff in Hm. destruct Hm as [[m' y] [E Hp]]. simpl in E. subst m'.
      apply nodup_In in Hp. apply in_map_iff in Hp. destruct Hp as [r [[= Hmr _] Hr]].
      apply Hfd in Hr. exists r. tauto.
    + intros [r [Hr [Hy [Hb Hm]]]].
      apply (Permutation_in _ (Permutation_sym (monthly_sales_months fd))).
      apply in_map_iff. exists (m, Year r). split; [reflexivity |].
      apply nodup_In. apply in_map_iff. exists r. split; [rewrite Hm; reflexivity |].
      apply Hfd. tauto.
Qed.

Lemma monthly_trend_one_point_per_month_witness :
  Tab1.monthly_trend_x (filtered_data february_first "2023" "All" "All") =
    ["January"; "February"] /\
  NoDup (Tab1.monthly_trend_x (filtered_data february_first "2023" "All" "All")).
Proof.
  split; [vm_compute; reflexivity |].
  apply (monthly_trend_one_point_per_month february_first "2023" "All").
  intros [=].
Defined.

Lemma merge_keys_In (left right : list (string * float)) (k : string) :
  In k (List.map (fun row => fst (fst row)) (Pandas.merge left right)) <->
  In k (List.map fst left) /\ In k (List.map fst right).
Proof.
  rewrite !in_map_iff. split.
  - intros [[[k' a] b] [E Hin]]. simpl in E. subst k'.
    apply merge_In in Hin. destruct Hin as [Hl Hr].
    split; [exists (k, a) | exists (k, b)]; auto.
  - intros [[[k1 a] [E1 Hl]] [[k2 b] [E2 Hr]]]. simpl in E1, E2. subst k1 k2.
    exists (k, a, b). split; [reflexivity |]. apply merge_In. auto.
Qed.

Lemma monthly_growth_keys (sales_data : SalesTable) (base_year compare_year : string) :
  Permutation
    (MonthByMonth.monthly_growth_x sales_data base_year compare_year)
    (List.map (fun row => fst (fst row))
       (Pandas.merge
          (Pandas.groupby_sum Month MTD_SALES (Tab4.year_data sales_data base_year))
          (Pandas.groupby_sum Month MTD_SALES (Tab4.year_data sales_data compare_year)))).
Proof.
  unfold MonthByMonth.monthly_growth_x, MonthByMonth.monthly_growth, Months.sort_by_month.
  cbv zeta.
  eapply Permutation_trans; [apply Permutation_map, sort_values_perm |].
  rewrite map_map.
  erewrite map_ext; [apply Permutation_refl | intros [[k a] b]; reflexivity].
Qed.

(** X21. The Month-by-Month Growth chart has a point for a month exactly when
    both the base year and the comparison year have rows in that month, no
    month twice, January to December: a month that only one of the years has
    is left out. *)
Theorem monthly_growth_months (sales_data : SalesTable) (base_year compare_year : string) :
  NoDup (MonthByMonth.monthly_growth_x sales_data base_year compare_year) /\
  Months.calendar_ordered
    (MonthByMonth.monthly_growth_x sales_data base_year compare_year) = true /\
  (forall m,
      In m (MonthByMonth.monthly_growth_x sales_data base_year compare_year) <->
      In m (List.map Month (Tab4.year_data sales_data base_year)) /\
      In m (List.map Month (Tab4.year_data sales_data compare_year))).
Proof.
  split; [| split].
  - eapply Permutation_NoDup; [apply Permutation_sym, monthly_growth_keys |].
    apply merge_keys_NoDup; rewrite groupby_sum_keys; apply sorted_unique_NoDup.
  - apply sort_by_month_calendar.
  - intros m. split.
    + intros Hm. apply (Permutation_in _ (monthly_growth_keys _ _ _)) in Hm.
      apply merge_keys_In in Hm. rewrite !groupby_sum_keys, !sorted_unique_In in Hm.
      exact Hm.
    + intros Hm.
      apply (Permutation_in _ (Permutation_sym (monthly_growth_keys _ _ _))).
      apply merge_keys_In. rewrite !groupby_sum_keys, !sorted_unique_In. exact Hm.
Qed.

(** ** Tab 3: the service selections *)

Lemma choice_as_filter {A : Type} (choice : string) (test : A -> bool) (l : list A) :
  (if negb (String.eqb choice "All") then List.filter test l else l) =
  List.filter (fun r => String.eqb choice "All" || test r) l.
Proof.
  destruct (String.eqb choice "All"); simpl.
  - symmetry. apply filter_all.
  - reflexivity.
Qed.

Lemma holds_iff (cell : option string) (selected : string) :
  holds cell selected = true <-> cell = Some selected.
Proof.
  destruct cell as [text |]; simpl.
  - rewrite String.eqb_eq. split; congruence.
  - split; discriminate.
Qed.

(** X22. A row is in [filtered_service_data] exactly when it is a row of the
    selected year that passes the five other selections, "All" letting every
    row pass.  A selection on one of the three columns that may be empty
    keeps only rows that hold the selected text there, so a row with nothing
    in that column is dropped by every selection but "All". *)
Theorem filtered_service_data_rows (service_data : ServiceTable)
    (selected_service_year selected_center selected_item_category selected_subcategory
     selected_business_unit selected_item_subcategory : string) (r : ServiceRow) :
  In r (filtered_service_data service_data selected_service_year selected_center
          selected_item_category selected_subcategory selected_business_unit
          selected_item_subcategory) <->
  In r service_data /\
  Service_Year r = selected_service_year /\
  (selected_center = "All" \/ Center_Name r = selected_center) /\
  (selected_item_category = "All" \/ Service_Type r = selected_item_category) /\
  (selected_subcategory = "All" \/ Item_Category r = Some selected_subcategory) /\
  (selected_business_unit = "All" \/ Business_Unit r = Some selected_business_unit) /\
  (selected_item_subcategory = "All" \/ Item_Subcategory r = Some selected_item_subcategory).
Proof.
  unfold filtered_service_data. cbv zeta.
  rewrite !choice_as_filter, !filter_In, !orb_true_iff, !holds_iff, !String.eqb_eq.
  tauto.
Qed.
